(** * Exclusion rules of timewarrior: a shallow embedding of src/Exclusion.cpp

    The file embeds [Exclusion::initialize], [Exclusion::ranges],
    [Exclusion::serialize], [Exclusion::dump] and
    [Exclusion::rangeFromTimeBlock], together with models of the library
    primitives they call ([split], [join], [format], [Pig], [Datetime],
    [Range]), and proves or refutes the properties the specification states
    about them. *)

From Stdlib Require Import ZArith List String Ascii Bool Lia.
From Stdlib Require Import Sorted.
Import ListNotations.

Local Open Scope string_scope.
Local Open Scope Z_scope.

(** * The program *)

(** ** Outcomes of a C++ call

    [Ok] is a normal return, [Throw] a thrown [std::string] (the only kind of
    exception the file raises).  [Undefined] stands for an out-of-range
    [operator[]] on a [std::vector], which C++ leaves undefined, and
    [OutOfFuel] is the loop model giving up; both are shown never to happen
    on rules built by [initialize]. *)

Inductive result (A : Type) : Type :=
| Ok (a : A)
| Throw (msg : string)
| Undefined
| OutOfFuel.

Arguments Ok {A} a.
Arguments Throw {A} msg.
Arguments Undefined {A}.
Arguments OutOfFuel {A}.

Definition bind {A B : Type} (m : result A) (k : A -> result B) : result B :=
  match m with
  | Ok a => k a
  | Throw msg => Throw msg
  | Undefined => Undefined
  | OutOfFuel => OutOfFuel
  end.

Notation "x <- m ;; k" := (bind m (fun x => k))
  (at level 61, m at next level, right associativity).

(** ** String utilities (shared.h, format.h) *)

(** Modelled from the spec: [split] of shared.h is not in the sources; the
    spec describes it as "whitespace split into tokens".  Runs of blanks
    separate tokens and produce no empty token. *)
Definition is_space (c : ascii) : bool :=
  match c with
  | " "%char => true
  | "009"%char | "010"%char | "011"%char | "012"%char | "013"%char => true
  | _ => false
  end.

Fixpoint split_go (cur : string) (s : string) : list string :=
  match s with
  | EmptyString =>
      match cur with EmptyString => [] | _ => [cur] end
  | String c s' =>
      if is_space c
      then match cur with
           | EmptyString => split_go EmptyString s'
           | _ => cur :: split_go EmptyString s'
           end
      else split_go (cur ++ String c EmptyString) s'
  end.

Definition split (input : string) : list string := split_go EmptyString input.

(** Modelled from the spec: [join] of shared.h is not in the sources; the
    spec describes it as "space-joined reconstruction": the items with the
    separator between consecutive ones. *)
Fixpoint join (separator : string) (items : list string) : string :=
  match items with
  | [] => EmptyString
  | [x] => x
  | x :: rest => x ++ separator ++ join separator rest
  end.

(** Modelled from the spec: [format] of format.h is not in the sources; the
    spec describes it as "template-style message construction with one
    substitution slot".  The slot is the text {1}. *)
Fixpoint format (fmt arg : string) : string :=
  match fmt with
  | String "{" (String "1" (String "}" rest)) => arg ++ rest
  | String c rest => String c (format rest arg)
  | EmptyString => EmptyString
  end.

(** The two error kinds of the spec, as the messages the code throws. *)
Definition SyntaxError (line : string) : string :=
  format "Unrecognized exclusion syntax: '{1}'." line.

Definition MalformedBlockError (block : string) : string :=
  format "Malformed time block '{1}'." block.

(** ** Calendar primitives (Datetime.h)

    Modelled from the spec: the class [Datetime] is not in the sources.  The
    spec lists what the core uses of it: construction from (year, month,
    day, hour, minute, second), increment by one calendar day, comparison,
    the field accessors year/month/day, the weekday of a datetime, the
    weekday index of a name, and date parsing.  A datetime is the number of
    seconds since 1970-01-01 00:00:00 in one fixed zone without
    daylight-saving shifts, over the proleptic Gregorian calendar. *)
Module Datetime.

Abbreviation t := Z (only parsing).

Definition day_seconds : Z := 86400.

(** Day number (days since 1970-01-01) of a civil date. *)
Definition days_from_civil (y m d : Z) : Z :=
  let y' := if m <=? 2 then y - 1 else y in
  let era := y' / 400 in
  let yoe := y' - era * 400 in
  let mp := if 2 <? m then m - 3 else m + 9 in
  let doy := (153 * mp + 2) / 5 + d - 1 in
  let doe := yoe * 365 + yoe / 4 - yoe / 100 + doy in
  era * 146097 + doe - 719468.

(** Month and day of the month of a day of the year, the year beginning
    on 1 March. *)
Definition month_day (doy : Z) : Z * Z :=
  let mp := (5 * doy + 2) / 153 in
  let d := doy - (153 * mp + 2) / 5 + 1 in
  let m := if mp <? 10 then mp + 3 else mp - 9 in
  (m, d).

(** Civil date (year, month, day) of a day number: the day of the
    400-year era is cut into centuries, 4-year cycles and years. *)
Definition civil_from_days (z : Z) : Z * Z * Z :=
  let z' := z + 719468 in
  let era := z' / 146097 in
  let doe := z' - era * 146097 in
  let c := Z.min (doe / 36524) 3 in
  let doc := doe - c * 36524 in
  let q := doc / 1461 in
  let doq := doc - q * 1461 in
  let yq := Z.min (doq / 365) 3 in
  let doy := doq - yq * 365 in
  let yoe := c * 100 + q * 4 + yq in
  let '(m, d) := month_day doy in
  ((if m <=? 2 then yoe + era * 400 + 1 else yoe + era * 400), m, d).

(** [Datetime (y, m, d, hh, mm, ss)]: fields out of their usual range
    carry over, as [mktime] does. *)
Definition make (y m d hh mm ss : Z) : t :=
  days_from_civil y m d * day_seconds + hh * 3600 + mm * 60 + ss.

Definition year (x : t) : Z := fst (fst (civil_from_days (x / day_seconds))).
Definition month (x : t) : Z := snd (fst (civil_from_days (x / day_seconds))).
Definition day (x : t) : Z := snd (civil_from_days (x / day_seconds)).

(** Midnight that begins the calendar day of [x]. *)
Definition startOfDay (x : t) : t := x / day_seconds * day_seconds.

(** [x.dayOfWeek ()]: 0 is Sunday; 1970-01-01 was a Thursday. *)
Definition dayOfWeek (x : t) : Z := (x / day_seconds + 4) mod 7.

(** [++x]: the same time of day on the next calendar day. *)
Definition incr (x : t) : t := x + day_seconds.

(** [Datetime::dayOfWeek (name)]: the index of a weekday name, -1 when the
    name is not one. *)
Definition dayOfWeekName (name : string) : Z :=
  if String.eqb name "sunday" then 0
  else if String.eqb name "monday" then 1
  else if String.eqb name "tuesday" then 2
  else if String.eqb name "wednesday" then 3
  else if String.eqb name "thursday" then 4
  else if String.eqb name "friday" then 5
  else if String.eqb name "saturday" then 6
  else -1.

Definition digit (c : ascii) : option Z :=
  let n := Z.of_nat (nat_of_ascii c) in
  if (48 <=? n) && (n <=? 57) then Some (n - 48) else None.

Definition isLeap (y : Z) : bool :=
  ((y mod 4 =? 0) && negb (y mod 100 =? 0)) || (y mod 400 =? 0).

Definition daysInMonth (y m : Z) : Z :=
  if m =? 2 then (if isLeap y then 29 else 28)
  else if (m =? 4) || (m =? 6) || (m =? 9) || (m =? 11) then 30
  else 31.

(** [Datetime (text)]: a date written YYYY-MM-DD, at midnight; [None]
    stands for the constructor's exception on any other text. *)
Definition parse (text : string) : option t :=
  match text with
  | String y1 (String y2 (String y3 (String y4 (String "-"
      (String m1 (String m2 (String "-"
        (String d1 (String d2 EmptyString))))))))) =>
      match digit y1, digit y2, digit y3, digit y4,
            digit m1, digit m2, digit d1, digit d2 with
      | Some a, Some b, Some c, Some d, Some e, Some f, Some g, Some h =>
          let y := a * 1000 + b * 100 + c * 10 + d in
          let m := e * 10 + f in
          let dd := g * 10 + h in
          if (1 <=? m) && (m <=? 12) && (1 <=? dd) && (dd <=? daysInMonth y m)
          then Some (make y m dd 0 0 0)
          else None
      | _, _, _, _, _, _, _, _ => None
      end
  | _ => None
  end.

Definition InvalidDate (text : string) : string :=
  format "'{1}' is not a valid date." text.

End Datetime.

(** ** Ranges (Range.h)

    Modelled from the spec: the class [Range] is not in the sources.  The
    spec gives an interval as half-open [start, end) and says that two
    intervals overlap iff their intersection is non-empty under half-open
    semantics. *)
Record Range : Type := mkRange { Rstart : Datetime.t; Rend : Datetime.t }.

Definition overlap (this other : Range) : bool :=
  Z.max (Rstart this) (Rstart other) <? Z.min (Rend this) (Rend other).

Definition duration (r : Range) : Z := Rend r - Rstart r.

(** ** The token scanner (Pig.h)

    Modelled from the spec: the class [Pig] is not in the sources.  The spec
    describes it as a positional scan over a block string supporting "skip
    this literal character if present" and "extract an HH:MM:SS numeric
    triple, advancing position, reporting failure if the field shape is
    wrong".  The scanner state is the text from the cursor on. *)
Module Pig.

Definition t : Type := string.

Definition make (text : string) : t := text.

Definition skip (c : ascii) (p : t) : bool * t :=
  match p with
  | String c' rest => if Ascii.eqb c' c then (true, rest) else (false, p)
  | EmptyString => (false, p)
  end.

Definition getDigit2 (p : t) : option Z * t :=
  match p with
  | String a (String b rest) =>
      match Datetime.digit a, Datetime.digit b with
      | Some x, Some y => (Some (10 * x + y), rest)
      | _, _ => (None, p)
      end
  | _ => (None, p)
  end.

(** On failure the cursor is put back where it was. *)
Definition getHMS (p : t) : option (Z * Z * Z) * t :=
  match getDigit2 p with
  | (Some hh, p1) =>
      match skip ":" p1 with
      | (true, p2) =>
          match getDigit2 p2 with
          | (Some mm, p3) =>
              match skip ":" p3 with
              | (true, p4) =>
                  match getDigit2 p4 with
                  | (Some ss, p5) => (Some (hh, mm, ss), p5)
                  | (None, _) => (None, p)
                  end
              | (false, _) => (None, p)
              end
          | (None, _) => (None, p)
          end
      | (false, _) => (None, p)
      end
  | (None, _) => (None, p)
  end.

End Pig.

(** ** The class Exclusion *)

Record Exclusion : Type := mkExclusion
  { tokens : list string;     (* _tokens *)
    additive : bool }.        (* _additive *)

(** [v[i]] on a [std::vector]. *)
Definition at_ (v : list string) (i : nat) : result string :=
  match nth_error v i with
  | Some s => Ok s
  | None => Undefined
  end.

(** [v[i] == s]. *)
Definition tok_eq (v : list string) (i : nat) (s : string) : result bool :=
  x <- at_ v i ;; Ok (String.eqb x s).

(** The short-circuit operators of C++. *)
Definition and_then (a b : result bool) : result bool :=
  x <- a ;; if x then b else Ok false.

Definition or_else (a b : result bool) : result bool :=
  x <- a ;; if x then Ok true else b.

Infix "&&&" := and_then (at level 40, left associativity).
Infix "|||" := or_else (at level 50, left associativity).

Definition size (v : list string) : Z := Z.of_nat (List.length v).

(** [Exclusion::initialize]: on [Ok] the rule holds the tokens and the flag;
    on [Throw] no rule is built. *)
Definition initialize (line : string) : result Exclusion :=
  let _tokens := split line in
  c <- Ok (2 <=? size _tokens) &&& tok_eq _tokens 0 "exc" ;;
  if c then
    c1 <- Ok (size _tokens =? 4) &&& tok_eq _tokens 1 "day"
          &&& tok_eq _tokens 2 "on" ;;
    if c1 then Ok (mkExclusion _tokens true)
    else
      c2 <- Ok (size _tokens =? 4) &&& tok_eq _tokens 1 "day"
            &&& tok_eq _tokens 2 "off" ;;
      if c2 then Ok (mkExclusion _tokens false)
      else
        t1 <- at_ _tokens 1 ;;
        if negb (Datetime.dayOfWeekName t1 =? -1)
        then Ok (mkExclusion _tokens false)
        else Throw (format "Unrecognized exclusion syntax: '{1}'." line)
  else Throw (format "Unrecognized exclusion syntax: '{1}'." line).

(** [Exclusion::rangeFromTimeBlock]. *)
Definition rangeFromTimeBlock (block : string) (start end_ : Datetime.t)
  : result Range :=
  let pig := Pig.make block in
  match Pig.skip "<" pig with
  | (true, pig) =>
      match Pig.getHMS pig with
      | (Some (hh, mm, ss), _) =>
          Ok (mkRange start
                (Datetime.make (Datetime.year start) (Datetime.month start)
                   (Datetime.day start) hh mm ss))
      | (None, _) => Throw (format "Malformed time block '{1}'." block)
      end
  | (false, pig) =>
      match Pig.skip ">" pig with
      | (true, pig) =>
          match Pig.getHMS pig with
          | (Some (hh, mm, ss), _) =>
              Ok (mkRange
                    (Datetime.make (Datetime.year start) (Datetime.month start)
                       (Datetime.day start) hh mm ss)
                    end_)
          | (None, _) => Throw (format "Malformed time block '{1}'." block)
          end
      | (false, pig) =>
          match Pig.getHMS pig with
          | (Some (hh1, mm1, ss1), pig) =>
              match Pig.skip "-" pig with
              | (true, pig) =>
                  match Pig.getHMS pig with
                  | (Some (hh2, mm2, ss2), _) =>
                      Ok (mkRange
                            (Datetime.make (Datetime.year start)
                               (Datetime.month start) (Datetime.day start)
                               hh1 mm1 ss1)
                            (Datetime.make (Datetime.year start)
                               (Datetime.month start) (Datetime.day start)
                               hh2 mm2 ss2))
                  | (None, _) =>
                      Throw (format "Malformed time block '{1}'." block)
                  end
              | (false, _) =>
                  Throw (format "Malformed time block '{1}'." block)
              end
          | (None, _) => Throw (format "Malformed time block '{1}'." block)
          end
      end
  end.

(** The inner loop of [ranges]: [for (b = 2; b < _tokens.size (); ++b)],
    run over the tokens from index 2 on; [results ++ [r]] is [push_back]. *)
Fixpoint blocks_loop (bs : list string) (start end_ : Datetime.t)
  (results : list Range) : result (list Range) :=
  match bs with
  | [] => Ok results
  | block :: bs' =>
      r <- rangeFromTimeBlock block start end_ ;;
      blocks_loop bs' start end_ (results ++ [r])%list
  end.

(** The outer loop of [ranges]: [while (start < range.end) { ...; ++start; }]. *)
Fixpoint walk (fuel : nat) (e : Exclusion) (dayOfWeek : Z) (range : Range)
  (start : Datetime.t) (results : list Range) : result (list Range) :=
  if start <? Rend range then
    match fuel with
    | O => OutOfFuel
    | S fuel' =>
        results' <-
          (if Datetime.dayOfWeek start =? dayOfWeek
           then
             let end_ := Datetime.incr start in
             blocks_loop (skipn 2 (tokens e)) start end_ results
           else Ok results) ;;
        walk fuel' e dayOfWeek range (Datetime.incr start) results'
    end
  else Ok results.

(** Iterations granted to the outer loop: one more than the whole days
    between the two ends of the range. *)
Definition walk_fuel (range : Range) : nat :=
  Z.to_nat ((Rend range - Rstart range) / Datetime.day_seconds + 1).

(** [Exclusion::ranges]. *)
Definition ranges (e : Exclusion) (range : Range) : result (list Range) :=
  let results : list Range := [] in
  c <- tok_eq (tokens e) 1 "day"
       &&& (tok_eq (tokens e) 2 "on" ||| tok_eq (tokens e) 2 "off") ;;
  if c then
    t3 <- at_ (tokens e) 3 ;;
    match Datetime.parse t3 with
    | None => Throw (Datetime.InvalidDate t3)
    | Some start =>
        let end_ := Datetime.incr start in
        let day := mkRange start end_ in
        if overlap range day then Ok (results ++ [day])%list else Ok results
    end
  else
    t1 <- at_ (tokens e) 1 ;;
    let dayOfWeek := Datetime.dayOfWeekName t1 in
    if negb (dayOfWeek =? -1)
    then walk (walk_fuel range) e dayOfWeek range (Rstart range) results
    else Ok results.

(** [Exclusion::serialize]. *)
Definition serialize (e : Exclusion) : string :=
  "exc" ++ join " " (tokens e).

(** [Exclusion::dump]. *)
Definition dump (e : Exclusion) : string :=
  "Exclusion " ++ join " " (tokens e) ++ String "010"%char EmptyString.

(** [parse] of the spec: the rule built from a line. *)
Definition parse (line : string) : result Exclusion := initialize line.

(** ** Running the code on concrete inputs *)

Definition at_time (y m d hh mm ss : Z) : Datetime.t :=
  Datetime.make y m d hh mm ss.

Definition ranges_of_line (line : string) (range : Range)
  : result (list Range) :=
  e <- initialize line ;; ranges e range.

(** * Vocabulary of the properties *)

(** ** Checks over a range of integers *)

(** [p] holds on the [n] integers from [z] on. *)
Fixpoint all_from (n : nat) (z : Z) (p : Z -> bool) : bool :=
  match n with
  | O => true
  | S k => if p z then all_from k (z + 1) p else false
  end.

(** Month and day of a day of the year, and back. *)
Definition doy_round (doy : Z) : bool :=
  let '(m, d) := Datetime.month_day doy in
  let mp := if 2 <? m then m - 3 else m + 9 in
  ((153 * mp + 2) / 5 + d - 1 =? doy) && (1 <=? m) && (m <=? 12).

(** ** The grammars of the spec *)

(** The three grammars of the spec, as tests on the token sequence. *)
Definition day_on_form (toks : list string) : bool :=
  match toks with
  | [mk; d; o; _] =>
      String.eqb mk "exc" && String.eqb d "day" && String.eqb o "on"
  | _ => false
  end.

Definition day_off_form (toks : list string) : bool :=
  match toks with
  | [mk; d; o; _] =>
      String.eqb mk "exc" && String.eqb d "day" && String.eqb o "off"
  | _ => false
  end.

(** A weekday name after the marker; the blocks are whatever follows. *)
Definition weekday_form (toks : list string) : bool :=
  match toks with
  | mk :: w :: _ =>
      String.eqb mk "exc" && negb (Datetime.dayOfWeekName w =? -1)
  | _ => false
  end.

(** ** Tokens *)

(** A string without blanks. *)
Fixpoint spaceless (s : string) : bool :=
  match s with
  | EmptyString => true
  | String c s' => negb (is_space c) && spaceless s'
  end.

(** A token: not empty and without blanks. *)
Definition is_token (s : string) : bool :=
  match s with
  | EmptyString => false
  | _ => spaceless s
  end.

(** ** What a time block decodes to *)

(** What the scanner reads in a block: a time after [<], a time after [>],
    or two times around [-]. *)
Inductive shape : Type :=
| Before (hms : Z * Z * Z)
| After (hms : Z * Z * Z)
| Between (hms1 hms2 : Z * Z * Z).

(** Seconds from midnight to a time of day. *)
Definition seconds (hms : Z * Z * Z) : Z :=
  let '(hh, mm, ss) := hms in hh * 3600 + mm * 60 + ss.

(** [Datetime (start.year (), start.month (), start.day (), hh, mm, ss)]. *)
Definition on_day (day : Datetime.t) (hms : Z * Z * Z) : Datetime.t :=
  let '(hh, mm, ss) := hms in
  Datetime.make (Datetime.year day) (Datetime.month day) (Datetime.day day)
    hh mm ss.

(** The scanning part of [rangeFromTimeBlock]. *)
Definition block_shape (block : string) : option shape :=
  match Pig.skip "<" (Pig.make block) with
  | (true, pig) =>
      match Pig.getHMS pig with
      | (Some hms, _) => Some (Before hms)
      | (None, _) => None
      end
  | (false, pig) =>
      match Pig.skip ">" pig with
      | (true, pig) =>
          match Pig.getHMS pig with
          | (Some hms, _) => Some (After hms)
          | (None, _) => None
          end
      | (false, pig) =>
          match Pig.getHMS pig with
          | (Some hms1, pig) =>
              match Pig.skip "-" pig with
              | (true, pig) =>
                  match Pig.getHMS pig with
                  | (Some hms2, _) => Some (Between hms1 hms2)
                  | (None, _) => None
                  end
              | (false, _) => None
              end
          | (None, _) => None
          end
      end
  end.

(** The constructing part of [rangeFromTimeBlock]. *)
Definition shape_range (sh : shape) (start end_ : Datetime.t) : Range :=
  match sh with
  | Before hms => mkRange start (on_day start hms)
  | After hms => mkRange (on_day start hms) end_
  | Between hms1 hms2 => mkRange (on_day start hms1) (on_day start hms2)
  end.

(** ** The days the walk visits and the decodings it asks for *)

(** The outcome of a list of decodings: all the values, or the first error. *)
Fixpoint collect {A : Type} (rs : list (result A)) : result (list A) :=
  match rs with
  | [] => Ok []
  | r :: rs' => x <- r ;; xs <- collect rs' ;; Ok (x :: xs)
  end.

(** Number of iterations of the outer loop begun at [start]: the days from
    [start] to the end of the range, a part of a day counting for one. *)
Definition day_count (range : Range) (start : Datetime.t) : nat :=
  Z.to_nat ((Rend range - start + 86399) / 86400).

(** [n] consecutive days from [start], each at the time of day of [start]. *)
Definition days_from (start : Datetime.t) (n : nat) : list Datetime.t :=
  map (fun k => start + Z.of_nat k * Datetime.day_seconds) (seq 0 n).

(** The values [start] takes in the outer loop. *)
Definition walk_days (range : Range) : list Datetime.t :=
  days_from (Rstart range) (day_count range (Rstart range)).

(** The days on which the inner loop runs. *)

Definition matched_days (dayOfWeek : Z) (range : Range) : list Datetime.t :=
  filter (fun d => Datetime.dayOfWeek d =? dayOfWeek) (walk_days range).

(** The decodings the two loops ask for, in the order they ask. *)
Definition decodings (bs : list string) (days : list Datetime.t)
  : list (result Range) :=
  flat_map (fun d => map (fun b => rangeFromTimeBlock b d (Datetime.incr d)) bs)
           days.

(** ** The intervals a rule asks for *)

(** The intervals a rule asks for inside a bound, each as the outcome of
    building it: the one day of a day on/off rule when it overlaps the
    bound, and for a weekday rule one interval per matched day and block. *)
Definition requested (e : Exclusion) (range : Range) : list (result Range) :=
  if day_on_form (tokens e) || day_off_form (tokens e) then
    match Datetime.parse (nth 3 (tokens e) "") with
    | None => [Throw (Datetime.InvalidDate (nth 3 (tokens e) ""))]
    | Some start =>
        let day := mkRange start (Datetime.incr start) in
        if overlap range day then [Ok day] else []
    end
  else
    decodings (skipn 2 (tokens e))
      (matched_days (Datetime.dayOfWeekName (nth 1 (tokens e) "")) range).

(** ** Order of the two ends of an interval *)

(** A datetime at 00:00:00. *)
Definition midnight (x : Datetime.t) : Prop := x mod Datetime.day_seconds = 0.

Definition shape_ordered (sh : shape) : bool :=
  match sh with
  | Before _ => true
  | After hms => seconds hms <=? Datetime.day_seconds
  | Between hms1 hms2 => seconds hms1 <=? seconds hms2
  end.

(** A block that, decoded on a day that starts at midnight, gives an
    interval whose start is not after its end. *)
Definition block_ordered (block : string) : bool :=
  match block_shape block with
  | Some sh => shape_ordered sh
  | None => true
  end.

(** ** Four weeks *)

(** The bound of 28 days from [start]. *)
Definition four_weeks (start : Datetime.t) : Range :=
  mkRange start (start + 28 * Datetime.day_seconds).

(** The first day on or after [start] whose weekday is [dow], at the time of
    day of [start]. *)
Definition first_weekday (dow : Z) (start : Datetime.t) : Datetime.t :=
  start + ((dow - Datetime.dayOfWeek start) mod 7) * Datetime.day_seconds.

(** ** The calendar days of a bound *)

(** A bound contains a weekday when some instant of it falls on it. *)
Definition contains_weekday (range : Range) (dow : Z) : Prop :=
  exists t, Rstart range <= t < Rend range /\ Datetime.dayOfWeek t = dow.

(** The calendar days that have an instant in the bound, each given by the
    midnight that begins it, in chronological order. *)
Definition calendar_days (range : Range) : list Datetime.t :=
  if Rstart range <? Rend range
  then
    let first := Datetime.startOfDay (Rstart range) in
    days_from first (day_count range first)
  else [].

(** ** Well-formed blocks *)

(** A block the scanner accepts. *)
Definition well_formed (block : string) : bool :=
  match block_shape block with Some _ => true | None => false end.

(** The interval of a well-formed block on the walk day [d]. *)
Definition block_range (d : Datetime.t) (block : string) : Range :=
  match block_shape block with
  | Some sh => shape_range sh d (Datetime.incr d)
  | None => mkRange d d
  end.

(** ** Moving a bound, and the first block the scanner refuses *)

(** A range moved by [delta] seconds. *)
Definition shift_range (delta : Z) (r : Range) : Range :=
  mkRange (Rstart r + delta) (Rend r + delta).

(** The first block, in token order, that the scanner refuses. *)
Definition first_malformed (bs : list string) : option string :=
  find (fun b => negb (well_formed b)) bs.

(** * Properties *)

(** ** The models run *)

Example parse_xmas : Datetime.parse "2024-12-25" = Some 1735084800.
Proof. reflexivity. Qed.

Example xmas_fields :
  (Datetime.year 1735084800, Datetime.month 1735084800,
   Datetime.day 1735084800, Datetime.dayOfWeek 1735084800) = (2024, 12, 25, 3).
Proof. reflexivity. Qed.

Example split_irregular :
  split "  exc   monday <09:00:00  " = ["exc"; "monday"; "<09:00:00"].
Proof. reflexivity. Qed.

(** ** The calendar model is coherent

    The accessors undo the constructor: the day number rebuilt from the
    year, month and day of a datetime is its own day number.  The year is
    found by arithmetic on the centuries, 4-year cycles and years of a
    400-year era; the month and the day are checked on each of the 366 days
    of a year. *)

Lemma all_from_spec (n : nat) (p : Z -> bool) :
  forall z, all_from n z p = true ->
  forall x, z <= x < z + Z.of_nat n -> p x = true.
Proof.
  induction n as [|n IH]; intros z H x Hx; [lia|].
  simpl in H. destruct (p z) eqn:Hp; [|discriminate].
  destruct (Z.eq_dec x z) as [->|Hne]; [exact Hp|].
  apply (IH (z + 1)); [exact H|lia].
Qed.

Lemma doy_round_all : all_from 366 0 doy_round = true.
Proof. vm_compute. reflexivity. Qed.

Lemma doy_round_ok (doy : Z) : 0 <= doy < 366 -> doy_round doy = true.
Proof.
  intros H. apply (all_from_spec _ _ 0 doy_round_all). simpl. lia.
Qed.

Lemma days_from_civil_from_days (z : Z) :
  let '(y, m, d) := Datetime.civil_from_days z in
  Datetime.days_from_civil y m d = z.
Proof.
  unfold Datetime.civil_from_days. cbv zeta.
  set (z' := z + 719468).
  set (era := z' / 146097).
  set (doe := z' - era * 146097).
  assert (Hdoe : 0 <= doe < 146097).
  { unfold doe, era. pose proof (Z.mod_pos_bound z' 146097 ltac:(lia)) as H.
    rewrite Z.mod_eq in H by lia. lia. }
  set (c := Z.min (doe / 36524) 3).
  set (doc := doe - c * 36524).
  set (q := doc / 1461).
  set (doq := doc - q * 1461).
  set (yq := Z.min (doq / 365) 3).
  set (doy := doq - yq * 365).
  set (yoe := c * 100 + q * 4 + yq).
  assert (Hc : 0 <= c <= 3 /\ 0 <= doc < 36525 /\ (c < 3 -> doc < 36524)).
  { unfold doc, c. pose proof (Z.div_mod doe 36524 ltac:(lia)) as D.
    pose proof (Z.mod_pos_bound doe 36524 ltac:(lia)) as B. lia. }
  assert (Hq : 0 <= q <= 24 /\ 0 <= doq < 1461 /\ (q < 24 \/ c = 3 \/ doq < 1460)).
  { unfold doq, q. pose proof (Z.div_mod doc 1461 ltac:(lia)) as D.
    pose proof (Z.mod_pos_bound doc 1461 ltac:(lia)) as B. lia. }
  assert (Hy : 0 <= yq <= 3 /\ 0 <= doy < 366).
  { unfold doy, yq. pose proof (Z.div_mod doq 365 ltac:(lia)) as D.
    pose proof (Z.mod_pos_bound doq 365 ltac:(lia)) as B. lia. }
  pose proof (doy_round_ok doy (proj2 Hy)) as R. unfold doy_round in R.
  destruct (Datetime.month_day doy) as [m d].
  apply andb_prop in R as [R R3]. apply andb_prop in R as [R1 R2].
  apply Z.eqb_eq in R1.
  unfold Datetime.days_from_civil. cbv zeta.
  assert (E : (if m <=? 2
               then (if m <=? 2 then yoe + era * 400 + 1 else yoe + era * 400) - 1
               else (if m <=? 2 then yoe + era * 400 + 1 else yoe + era * 400))
              = yoe + era * 400).
  { destruct (m <=? 2); lia. }
  rewrite E.
  assert (Hyoe : 0 <= yoe < 400) by (unfold yoe; lia).
  assert (Q : (yoe + era * 400) / 400 = era).
  { rewrite Z.div_add by lia. rewrite Z.div_small by lia. lia. }
  rewrite Q.
  replace (yoe + era * 400 - era * 400) with yoe by lia.
  assert (Q4 : yoe / 4 = c * 25 + q).
  { symmetry. apply (Z.div_unique yoe 4 (c * 25 + q) yq); unfold yoe; lia. }
  assert (Q100 : yoe / 100 = c).
  { symmetry. apply (Z.div_unique yoe 100 c (q * 4 + yq)); unfold yoe; lia. }
  rewrite Q4, Q100, R1. unfold yoe, doy, doq, doc, doe, z'. lia.
Qed.

Lemma make_of_fields (x : Datetime.t) (hh mm ss : Z) :
  Datetime.make (Datetime.year x) (Datetime.month x) (Datetime.day x) hh mm ss
  = Datetime.startOfDay x + hh * 3600 + mm * 60 + ss.
Proof.
  unfold Datetime.make, Datetime.year, Datetime.month, Datetime.day,
    Datetime.startOfDay.
  pose proof (days_from_civil_from_days (x / Datetime.day_seconds)) as H.
  destruct (Datetime.civil_from_days (x / Datetime.day_seconds)) as [[y m] d].
  simpl. rewrite H. reflexivity.
Qed.

Lemma startOfDay_midnight (x : Datetime.t) :
  x mod Datetime.day_seconds = 0 -> Datetime.startOfDay x = x.
Proof.
  unfold Datetime.startOfDay, Datetime.day_seconds. intros H.
  pose proof (Z.div_mod x 86400 ltac:(lia)). lia.
Qed.

Lemma dayOfWeek_range (x : Datetime.t) : 0 <= Datetime.dayOfWeek x < 7.
Proof. unfold Datetime.dayOfWeek. apply Z.mod_pos_bound. lia. Qed.

Lemma dayOfWeek_plus_days (x k : Z) :
  Datetime.dayOfWeek (x + k * Datetime.day_seconds)
  = (Datetime.dayOfWeek x + k) mod 7.
Proof.
  unfold Datetime.dayOfWeek, Datetime.day_seconds.
  rewrite Z.div_add by lia.
  rewrite Zplus_mod_idemp_l. f_equal. lia.
Qed.

Example calendar_samples :
  (Datetime.civil_from_days 0, Datetime.civil_from_days 11016,
   Datetime.civil_from_days 11017, Datetime.civil_from_days (-1),
   Datetime.civil_from_days 16804)
  = ((1970, 1, 1), (2000, 2, 29), (2000, 3, 1), (1969, 12, 31), (2016, 1, 4)).
Proof. reflexivity. Qed.

(** ** Parsing *)

Lemma dayOfWeekName_day : Datetime.dayOfWeekName "day" = -1.
Proof. reflexivity. Qed.

(** [initialize] read off the token sequence. *)
Lemma initialize_cases (line : string) :
  initialize line =
  match split line with
  | t0 :: t1 :: _ =>
      if String.eqb t0 "exc" then
        if day_on_form (split line) then Ok (mkExclusion (split line) true)
        else if day_off_form (split line)
             then Ok (mkExclusion (split line) false)
        else if negb (Datetime.dayOfWeekName t1 =? -1)
             then Ok (mkExclusion (split line) false)
        else Throw (SyntaxError line)
      else Throw (SyntaxError line)
  | _ => Throw (SyntaxError line)
  end.
Proof.
  unfold initialize, SyntaxError.
  destruct (split line) as [|t0 [|t1 [|t2 [|t3 [|t4 rest]]]]].
  - reflexivity.
  - reflexivity.
  - (* two tokens *)
    cbn -[Datetime.dayOfWeekName format String.eqb].
    destruct (String.eqb t0 "exc"); reflexivity.
  - (* three tokens *)
    cbn -[Datetime.dayOfWeekName format String.eqb].
    destruct (String.eqb t0 "exc"); reflexivity.
  - (* four tokens *)
    cbn -[Datetime.dayOfWeekName format String.eqb].
    destruct (String.eqb t0 "exc") eqn:E0; [|reflexivity].
    destruct (String.eqb t1 "day") eqn:E1; [|reflexivity].
    destruct (String.eqb t2 "on") eqn:E2; [reflexivity|].
    destruct (String.eqb t2 "off") eqn:E3; reflexivity.
  - (* five tokens or more *)
    set (n := size (t0 :: t1 :: t2 :: t3 :: t4 :: rest)).
    assert (Hn : 5 <= n) by (subst n; unfold size; simpl List.length; lia).
    clearbody n.
    replace (2 <=? n) with true by (symmetry; apply Z.leb_le; lia).
    replace (n =? 4) with false by (symmetry; apply Z.eqb_neq; lia).
    cbn -[Datetime.dayOfWeekName format String.eqb].
    destruct (String.eqb t0 "exc") eqn:E0; [|reflexivity].
    reflexivity.
Qed.

Lemma initialize_ok_tokens (line : string) (r : Exclusion) :
  initialize line = Ok r ->
  tokens r = split line /\
  exists t1 rest, split line = "exc" :: t1 :: rest.
Proof.
  rewrite initialize_cases.
  destruct (split line) as [|t0 [|t1 rest]] eqn:S; try discriminate.
  destruct (String.eqb t0 "exc") eqn:E0; [|discriminate].
  apply String.eqb_eq in E0. subst t0.
  intros H. split.
  - destruct (day_on_form _); [injection H as <-; reflexivity|].
    destruct (day_off_form _); [injection H as <-; reflexivity|].
    destruct (negb _); [injection H as <-; reflexivity|discriminate].
  - exists t1, rest. reflexivity.
Qed.

Lemma split_serialized (t1 : string) (rest : list string) :
  exists more,
    split ("exc" ++ join " " ("exc" :: t1 :: rest)) = "excexc" :: more.
Proof.
  eexists. cbn -[join]. reflexivity.
Qed.

(** *** Splitting a joined token sequence *)

Lemma append_nil_r (s : string) : s ++ "" = s.
Proof. induction s as [|c s IH]; simpl; [reflexivity|rewrite IH; reflexivity]. Qed.

Lemma append_assoc (a b c : string) : (a ++ b) ++ c = a ++ (b ++ c).
Proof. induction a as [|x a IH]; simpl; [reflexivity|rewrite IH; reflexivity]. Qed.

Lemma spaceless_app (a b : string) :
  spaceless (a ++ b) = spaceless a && spaceless b.
Proof.
  induction a as [|x a IH]; simpl; [reflexivity|].
  rewrite IH, andb_assoc. reflexivity.
Qed.

Lemma split_go_spaceless (t : string) :
  spaceless t = true ->
  forall cur rest, split_go cur (t ++ rest) = split_go (cur ++ t) rest.
Proof.
  induction t as [|c t IH]; intros S cur rest; simpl.
  - rewrite append_nil_r. reflexivity.
  - simpl in S. apply andb_prop in S as [C S].
    destruct (is_space c); [discriminate|].
    rewrite (IH S), append_assoc. reflexivity.
Qed.

Lemma split_go_tokens (s : string) :
  forall cur, spaceless cur = true ->
  Forall (fun t => is_token t = true) (split_go cur s).
Proof.
  induction s as [|c s IH]; intros cur S; simpl.
  - destruct cur; constructor; [exact S|constructor].
  - destruct (is_space c) eqn:C.
    + destruct cur; [apply IH; reflexivity|].
      constructor; [exact S|apply IH; reflexivity].
    + apply IH. rewrite spaceless_app, S. simpl. rewrite C. reflexivity.
Qed.

Lemma split_tokens (line : string) :
  Forall (fun t => is_token t = true) (split line).
Proof. apply split_go_tokens. reflexivity. Qed.

Lemma split_join (toks : list string) :
  Forall (fun t => is_token t = true) toks ->
  split (join " " toks) = toks.
Proof.
  unfold split. induction 1 as [|t toks T _ IH]; [reflexivity|].
  assert (S : spaceless t = true) by (destruct t; [discriminate|exact T]).
  destruct toks as [|u toks].
  - simpl. rewrite <- (append_nil_r t) at 1.
    rewrite (split_go_spaceless t S). simpl.
    destruct t; [discriminate|reflexivity].
  - change (join " " (t :: u :: toks))
      with (t ++ String " " (join " " (u :: toks))).
    rewrite (split_go_spaceless t S). change ("" ++ t) with t.
    destruct t as [|c t]; [discriminate|].
    cbn [split_go is_space]. rewrite IH. reflexivity.
Qed.

(** Had [serialize] written the tokens alone, joined by spaces, parsing its
    text would give the rule back. *)
Lemma parse_of_joined_tokens (line : string) (r : Exclusion) :
  initialize line = Ok r -> initialize (join " " (tokens r)) = Ok r.
Proof.
  intros H. destruct (initialize_ok_tokens line r H) as [T _].
  rewrite initialize_cases in *.
  rewrite T, (split_join _ (split_tokens line)).
  destruct (split line) as [|t0 [|t1 rest]]; try discriminate.
  destruct (String.eqb t0 "exc"); [|discriminate].
  destruct (day_on_form _); [exact H|].
  destruct (day_off_form _); [exact H|].
  destruct (negb _); [exact H|discriminate].
Qed.

(** *** What [parse] accepts, and the round trip *)

Ltac parse_fin :=
  repeat match goal with
  | H : Ok _ = Ok _ |- _ => injection H as <-
  | H : _ \/ _ |- _ => destruct H
  | H : _ /\ _ |- _ => destruct H
  end;
  cbn [tokens additive] in *;
  first [ reflexivity | discriminate | congruence | lia
        | left; eexists; reflexivity
        | left; simpl; lia
        | right; reflexivity
        | right; left; assumption
        | right; right; repeat split; (reflexivity || assumption) ].

(** C5: [parse] sets [additive] to true exactly for the four-token "day on"
    form, to false for the "day off" form and for every weekday form, and it
    fails, with the syntax error that carries the line, exactly when there
    are fewer than two tokens, or the marker is not "exc", or the tokens
    have neither the day on/off shape nor a resolvable weekday name in second
    place. *)
Theorem parse_additive_and_failure (line : string) :
  let toks := split line in
  (day_on_form toks = true -> parse line = Ok (mkExclusion toks true)) /\
  (day_off_form toks = true -> parse line = Ok (mkExclusion toks false)) /\
  (weekday_form toks = true -> parse line = Ok (mkExclusion toks false)) /\
  (forall r, parse line = Ok r ->
             tokens r = toks /\
             (additive r = true <-> day_on_form toks = true)) /\
  (parse line = Throw (SyntaxError line) <->
     (List.length toks < 2)%nat \/
     nth 0 toks "" <> "exc" \/
     (day_on_form toks = false /\ day_off_form toks = false /\
      Datetime.dayOfWeekName (nth 1 toks "") = -1)) /\
  ((exists r, parse line = Ok r) \/ parse line = Throw (SyntaxError line)).
Proof.
  unfold parse. cbv zeta. rewrite initialize_cases.
  destruct (split line) as [|t0 [|t1 rest]] eqn:S.
  - cbn. repeat split; try discriminate; auto; try (intros _; left; lia).
  - cbn. repeat split; try discriminate; auto; try (intros _; left; lia).
  - assert (Hoff : day_on_form (t0 :: t1 :: rest) = true ->
                   day_off_form (t0 :: t1 :: rest) = false).
    { destruct rest as [|t2 [|t3 [|t4 rest']]]; cbn; try discriminate.
      destruct (String.eqb t0 "exc"), (String.eqb t1 "day"); cbn;
        try discriminate.
      destruct (String.eqb t2 "on") eqn:E; [|discriminate].
      apply String.eqb_eq in E. subst t2. reflexivity. }
    assert (Hwd : (day_on_form (t0 :: t1 :: rest) = true \/
                   day_off_form (t0 :: t1 :: rest) = true) ->
                  Datetime.dayOfWeekName t1 = -1).
    { destruct rest as [|t2 [|t3 [|t4 rest']]]; cbn;
        try (intros [?|?]; discriminate).
      destruct (String.eqb t0 "exc"); cbn; try (intros [?|?]; discriminate).
      destruct (String.eqb t1 "day") eqn:E; cbn;
        try (intros [?|?]; discriminate).
      apply String.eqb_eq in E. subst t1. reflexivity. }
    assert (Hmk : (day_on_form (t0 :: t1 :: rest) = true \/
                   day_off_form (t0 :: t1 :: rest) = true) ->
                  String.eqb t0 "exc" = true).
    { destruct rest as [|t2 [|t3 [|t4 rest']]]; cbn;
        try (intros [?|?]; discriminate).
      destruct (String.eqb t0 "exc"); cbn; [auto | intros [?|?]; discriminate]. }
    cbn [nth weekday_form List.length].
    destruct (String.eqb t0 "exc") eqn:E0.
    + apply String.eqb_eq in E0.
      destruct (day_on_form (t0 :: t1 :: rest)) eqn:Don.
      { pose proof (Hoff eq_refl) as Off.
        pose proof (Hwd (or_introl eq_refl)) as Wd.
        rewrite Off, Wd. cbn [Z.eqb negb andb].
        repeat split; intros; parse_fin. }
      destruct (day_off_form (t0 :: t1 :: rest)) eqn:Doff.
      { pose proof (Hwd (or_intror eq_refl)) as Wd.
        rewrite Wd. cbn [Z.eqb negb andb].
        repeat split; intros; parse_fin. }
      destruct (Datetime.dayOfWeekName t1 =? -1) eqn:Dw; cbn [negb andb].
      { apply Z.eqb_eq in Dw. repeat split; intros; parse_fin. }
      { apply Z.eqb_neq in Dw. repeat split; intros; parse_fin. }
    + assert (t0 <> "exc") by (apply String.eqb_neq; exact E0).
      assert (Don : day_on_form (t0 :: t1 :: rest) = false).
      { destruct (day_on_form _) eqn:D; [|reflexivity].
        pose proof (Hmk (or_introl eq_refl)). discriminate. }
      assert (Doff : day_off_form (t0 :: t1 :: rest) = false).
      { destruct (day_off_form _) eqn:D; [|reflexivity].
        pose proof (Hmk (or_intror eq_refl)). discriminate. }
      rewrite Don, Doff. cbn [andb].
      repeat split; intros; parse_fin.
Qed.

(** C2 (the code departs from the claim): a line made of the marker and a
    resolvable weekday name, with no time block, is accepted: [parse] builds
    the two-token rule with [additive] false instead of failing. *)
Theorem weekday_without_blocks_is_accepted (line w : string) :
  split line = ["exc"; w] ->
  Datetime.dayOfWeekName w <> -1 ->
  parse line = Ok (mkExclusion ["exc"; w] false).
Proof.
  intros S W. unfold parse. rewrite initialize_cases, S.
  cbn -[Datetime.dayOfWeekName].
  apply Z.eqb_neq in W. rewrite W. reflexivity.
Qed.

Lemma weekday_without_blocks_is_accepted_witness :
  split "exc monday" = ["exc"; "monday"] /\
  Datetime.dayOfWeekName "monday" <> -1 /\
  parse "exc monday" = Ok (mkExclusion ["exc"; "monday"] false).
Proof.
  split; [reflexivity|]. split; [discriminate|].
  apply (weekday_without_blocks_is_accepted "exc monday" "monday");
    [reflexivity|discriminate].
Defined.

(** C1 (the code departs from the claim): [serialize] puts the marker in
    front of tokens that already begin with it, so the text it writes for a
    parsed rule begins with "excexc" and [parse] rejects it: the round trip
    fails for every rule. *)
Theorem serialize_is_rejected_by_parse (line : string) (r : Exclusion) :
  parse line = Ok r ->
  parse (serialize r) = Throw (SyntaxError (serialize r)).
Proof.
  unfold parse. intros H.
  destruct (initialize_ok_tokens line r H) as [T [t1 [rest S]]].
  unfold serialize. rewrite T, S.
  destruct (split_serialized t1 rest) as [more M].
  rewrite initialize_cases, M.
  destruct more; reflexivity.
Qed.

Lemma serialize_is_rejected_by_parse_witness :
  parse "exc day on 2016-01-01"
    = Ok (mkExclusion ["exc"; "day"; "on"; "2016-01-01"] true) /\
  serialize (mkExclusion ["exc"; "day"; "on"; "2016-01-01"] true)
    = "excexc day on 2016-01-01" /\
  parse "excexc day on 2016-01-01"
    = Throw (SyntaxError "excexc day on 2016-01-01").
Proof.
  split; [reflexivity|]. split; [reflexivity|].
  exact (serialize_is_rejected_by_parse "exc day on 2016-01-01"
           (mkExclusion ["exc"; "day"; "on"; "2016-01-01"] true) eq_refl).
Defined.

(** ** Decoding a time block *)

(** [rangeFromTimeBlock] is the scan followed by the construction. *)
Lemma rangeFromTimeBlock_shape (block : string) (start end_ : Datetime.t) :
  rangeFromTimeBlock block start end_ =
  match block_shape block with
  | Some sh => Ok (shape_range sh start end_)
  | None => Throw (MalformedBlockError block)
  end.
Proof.
  unfold rangeFromTimeBlock, block_shape, MalformedBlockError.
  destruct (Pig.skip "<" (Pig.make block)) as [[|] p1].
  - destruct (Pig.getHMS p1) as [[[[hh mm] ss]|] p2];
      cbn [shape_range on_day]; reflexivity.
  - destruct (Pig.skip ">" p1) as [[|] p2].
    + destruct (Pig.getHMS p2) as [[[[hh mm] ss]|] p3];
        cbn [shape_range on_day]; reflexivity.
    + destruct (Pig.getHMS p2) as [[[[hh mm] ss]|] p3]; [|reflexivity].
      destruct (Pig.skip "-" p3) as [[|] p4]; [|reflexivity].
      destruct (Pig.getHMS p4) as [[[[hh2 mm2] ss2]|] p5];
        cbn [shape_range on_day]; reflexivity.
Qed.

Lemma on_day_seconds (day : Datetime.t) (hms : Z * Z * Z) :
  on_day day hms = Datetime.startOfDay day + seconds hms.
Proof.
  destruct hms as [[hh mm] ss]. unfold on_day, seconds.
  rewrite make_of_fields. lia.
Qed.

(** The scanner reads two-digit fields, so no field is negative. *)
Lemma digit_range (c : ascii) (x : Z) : Datetime.digit c = Some x -> 0 <= x <= 9.
Proof.
  unfold Datetime.digit.
  destruct (_ && _) eqn:E; [|discriminate].
  intros [= <-]. apply andb_prop in E as [A B].
  apply Z.leb_le in A. apply Z.leb_le in B. lia.
Qed.

Lemma getDigit2_range (p p' : Pig.t) (x : Z) :
  Pig.getDigit2 p = (Some x, p') -> 0 <= x <= 99.
Proof.
  unfold Pig.getDigit2. destruct p as [|a [|b rest]]; try discriminate.
  destruct (Datetime.digit a) eqn:A; [|discriminate].
  destruct (Datetime.digit b) eqn:B; [|discriminate].
  intros H. assert (X : x = 10 * z + z0) by congruence.
  apply digit_range in A. apply digit_range in B. lia.
Qed.

Lemma getHMS_range (p p' : Pig.t) (hms : Z * Z * Z) :
  Pig.getHMS p = (Some hms, p') -> 0 <= seconds hms <= 362439.
Proof.
  unfold Pig.getHMS.
  destruct (Pig.getDigit2 p) as [[hh|] p1] eqn:H1; [|discriminate].
  destruct (Pig.skip ":" p1) as [[|] p2]; [|discriminate].
  destruct (Pig.getDigit2 p2) as [[mm|] p3] eqn:H2; [|discriminate].
  destruct (Pig.skip ":" p3) as [[|] p4]; [|discriminate].
  destruct (Pig.getDigit2 p4) as [[ss|] p5] eqn:H3; [|discriminate].
  intros H. assert (X : hms = (hh, mm, ss)) by congruence. subst hms.
  apply getDigit2_range in H1, H2, H3. unfold seconds. lia.
Qed.

Lemma block_shape_Before (block : string) (hms : Z * Z * Z) :
  block_shape block = Some (Before hms) -> 0 <= seconds hms.
Proof.
  unfold block_shape.
  destruct (Pig.skip "<" (Pig.make block)) as [[|] p1].
  - destruct (Pig.getHMS p1) as [[h|] p2] eqn:G; [|discriminate].
    intros [= <-]. apply getHMS_range in G. lia.
  - destruct (Pig.skip ">" p1) as [[|] p2].
    + destruct (Pig.getHMS p2) as [[h|] p3]; discriminate.
    + destruct (Pig.getHMS p2) as [[h|] p3]; [|discriminate].
      destruct (Pig.skip "-" p3) as [[|] p4]; [|discriminate].
      destruct (Pig.getHMS p4) as [[h2|] p5]; discriminate.
Qed.

(** ** The loops of [ranges] *)

Lemma collect_app {A : Type} (xs ys : list (result A)) :
  collect (xs ++ ys)%list =
  (a <- collect xs ;; b <- collect ys ;; Ok (a ++ b)%list).
Proof.
  induction xs as [|x xs IH]; simpl.
  - destruct (collect ys); reflexivity.
  - destruct x; simpl; try reflexivity. rewrite IH.
    destruct (collect xs); simpl; try reflexivity.
    destruct (collect ys); reflexivity.
Qed.

Lemma blocks_loop_collect (bs : list string) (start end_ : Datetime.t) :
  forall results,
  blocks_loop bs start end_ results =
  (l <- collect (map (fun b => rangeFromTimeBlock b start end_) bs) ;;
   Ok (results ++ l)%list).
Proof.
  induction bs as [|b bs IH]; intros results; simpl.
  - rewrite app_nil_r. reflexivity.
  - destruct (rangeFromTimeBlock b start end_); simpl; try reflexivity.
    rewrite IH.
    destruct (collect _); simpl; try reflexivity.
    rewrite <- app_assoc. reflexivity.
Qed.

Lemma days_from_S (start : Datetime.t) (n : nat) :
  days_from start (S n) = start :: days_from (Datetime.incr start) n.
Proof.
  unfold days_from. cbn [seq map]. f_equal; [lia|].
  rewrite <- seq_shift, map_map. apply map_ext.
  intros k. unfold Datetime.incr. lia.
Qed.

Lemma day_count_O (range : Range) (start : Datetime.t) :
  day_count range start = O -> (start <? Rend range) = false.
Proof.
  unfold day_count. intros H. apply Z.ltb_ge.
  assert (Q : (Rend range - start + 86399) / 86400 <= 0) by lia.
  pose proof (Z.div_mod (Rend range - start + 86399) 86400 ltac:(lia)).
  pose proof (Z.mod_pos_bound (Rend range - start + 86399) 86400 ltac:(lia)).
  lia.
Qed.

Lemma day_count_S (range : Range) (start : Datetime.t) (n : nat) :
  day_count range start = S n ->
  (start <? Rend range) = true /\
  day_count range (Datetime.incr start) = n.
Proof.
  unfold day_count, Datetime.incr, Datetime.day_seconds. intros H.
  pose proof (Z.div_mod (Rend range - start + 86399) 86400 ltac:(lia)).
  pose proof (Z.mod_pos_bound (Rend range - start + 86399) 86400 ltac:(lia)).
  split.
  - apply Z.ltb_lt. lia.
  - replace (Rend range - (start + 86400) + 86399)
      with (Rend range - start + 86399 + (-1) * 86400) by lia.
    rewrite Z.div_add by lia. lia.
Qed.

Lemma day_count_fuel (range : Range) :
  (day_count range (Rstart range) <= walk_fuel range)%nat.
Proof.
  unfold day_count, walk_fuel, Datetime.day_seconds.
  set (x := Rend range - Rstart range).
  pose proof (Z.div_mod x 86400 ltac:(lia)).
  pose proof (Z.mod_pos_bound x 86400 ltac:(lia)).
  pose proof (Z.div_mod (x + 86399) 86400 ltac:(lia)).
  pose proof (Z.mod_pos_bound (x + 86399) 86400 ltac:(lia)).
  lia.
Qed.

(** The outer loop, with enough fuel, appends to [results] the decodings of
    the matched days, or throws the first error among them. *)
Lemma walk_collect (e : Exclusion) (dow : Z) (range : Range) :
  forall n fuel start results,
    day_count range start = n -> (n <= fuel)%nat ->
    walk fuel e dow range start results =
    (l <- collect (decodings (skipn 2 (tokens e))
                     (filter (fun d => Datetime.dayOfWeek d =? dow)
                        (days_from start n))) ;;
     Ok (results ++ l)%list).
Proof.
  induction n as [|n IH]; intros fuel start results Hn Hf.
  - apply day_count_O in Hn.
    destruct fuel; cbn [walk]; rewrite Hn; cbn; rewrite app_nil_r; reflexivity.
  - destruct (day_count_S _ _ _ Hn) as [Hlt Hn'].
    destruct fuel as [|fuel]; [lia|].
    cbn [walk]. rewrite Hlt. rewrite days_from_S. cbn [filter].
    destruct (Datetime.dayOfWeek start =? dow).
    + cbv zeta. rewrite blocks_loop_collect.
      cbn [decodings flat_map]. rewrite collect_app.
      destruct (collect (map _ (skipn 2 (tokens e)))) as [l1| | |];
        cbn [bind]; try reflexivity.
      rewrite (IH fuel (Datetime.incr start) (results ++ l1)%list Hn')
        by lia.
      fold (decodings (skipn 2 (tokens e))
              (filter (fun d => Datetime.dayOfWeek d =? dow)
                 (days_from (Datetime.incr start) n))).
      destruct (collect (decodings _ _)) as [l2| | |]; cbn [bind];
        try reflexivity.
      rewrite app_assoc. reflexivity.
    + cbn [bind]. apply IH; [exact Hn'|lia].
Qed.

(** [ranges] on a weekday rule. *)
Lemma ranges_weekday (e : Exclusion) (range : Range) (t0 t1 : string)
  (bs : list string) :
  tokens e = t0 :: t1 :: bs ->
  Datetime.dayOfWeekName t1 <> -1 ->
  ranges e range =
  collect (decodings bs (matched_days (Datetime.dayOfWeekName t1) range)).
Proof.
  intros T W. unfold ranges. rewrite T.
  assert (D : String.eqb t1 "day" = false).
  { apply String.eqb_neq. intros ->. apply W. reflexivity. }
  cbn -[Datetime.dayOfWeekName String.eqb walk]. rewrite D.
  cbn -[Datetime.dayOfWeekName String.eqb walk].
  apply Z.eqb_neq in W. rewrite W. cbn [negb].
  rewrite (walk_collect e _ range _ _ _ _ eq_refl (day_count_fuel range)).
  rewrite T. cbn [skipn]. unfold matched_days, walk_days.
  destruct (collect _); reflexivity.
Qed.

(** [ranges] on a day on/off rule. *)
Lemma ranges_day (e : Exclusion) (range : Range) (t0 t2 t3 : string)
  (rest : list string) :
  tokens e = t0 :: "day" :: t2 :: t3 :: rest ->
  t2 = "on" \/ t2 = "off" ->
  ranges e range =
  match Datetime.parse t3 with
  | None => Throw (Datetime.InvalidDate t3)
  | Some start =>
      let day := mkRange start (Datetime.incr start) in
      if overlap range day then Ok [day] else Ok []
  end.
Proof.
  intros T O. unfold ranges. rewrite T.
  destruct O as [-> | ->]; reflexivity.
Qed.

(** ** Rules built by [parse] *)

Lemma day_form_tokens (toks : list string) :
  day_on_form toks = true \/ day_off_form toks = true ->
  exists t2 t3, toks = ["exc"; "day"; t2; t3] /\ (t2 = "on" \/ t2 = "off").
Proof.
  destruct toks as [|t0 [|t1 [|t2 [|t3 [|t4 rest]]]]]; cbn;
    try (intros [?|?]; discriminate).
  intros H. exists t2, t3.
  destruct (String.eqb t0 "exc") eqn:E0;
    [|destruct H; discriminate].
  destruct (String.eqb t1 "day") eqn:E1;
    [|destruct H; discriminate].
  apply String.eqb_eq in E0, E1. subst t0 t1. split; [reflexivity|].
  cbn in H. destruct H as [H|H]; apply String.eqb_eq in H; auto.
Qed.

Lemma parse_forms (line : string) (e : Exclusion) :
  parse line = Ok e ->
  tokens e = split line /\
  (day_on_form (tokens e) = true \/ day_off_form (tokens e) = true \/
   (day_on_form (tokens e) = false /\ day_off_form (tokens e) = false /\
    weekday_form (tokens e) = true)).
Proof.
  intros H.
  destruct (initialize_ok_tokens line e H) as [T [t1 [rest S]]].
  split; [exact T|]. rewrite T.
  unfold parse in H. rewrite initialize_cases in H. rewrite S in *.
  cbn [String.eqb Ascii.eqb Bool.eqb] in H.
  destruct (day_on_form _); [left; reflexivity|].
  destruct (day_off_form _); [right; left; reflexivity|].
  right; right. cbn [weekday_form String.eqb Ascii.eqb Bool.eqb andb].
  destruct (negb _); [auto|discriminate].
Qed.

Lemma weekday_form_tokens (toks : list string) :
  weekday_form toks = true ->
  exists t1 bs, toks = "exc" :: t1 :: bs /\ Datetime.dayOfWeekName t1 <> -1.
Proof.
  destruct toks as [|t0 [|t1 bs]]; cbn -[Datetime.dayOfWeekName];
    try discriminate.
  intros H. apply andb_prop in H as [E W].
  apply String.eqb_eq in E. subst t0.
  exists t1, bs. split; [reflexivity|].
  apply Z.eqb_neq. destruct (_ =? _); [discriminate|reflexivity].
Qed.

Lemma ranges_requested (line : string) (e : Exclusion) (range : Range) :
  parse line = Ok e -> ranges e range = collect (requested e range).
Proof.
  intros H. destruct (parse_forms line e H) as [_ F]. unfold requested.
  destruct F as [F|[F|[F1 [F2 F3]]]].
  - rewrite F. cbn [orb].
    destruct (day_form_tokens _ (or_introl F)) as [t2 [t3 [T O]]].
    rewrite (ranges_day e range _ _ _ _ T O), T. cbn [nth].
    destruct (Datetime.parse t3); [|reflexivity].
    cbv zeta. destruct (overlap _ _); reflexivity.
  - rewrite F, orb_true_r.
    destruct (day_form_tokens _ (or_intror F)) as [t2 [t3 [T O]]].
    rewrite (ranges_day e range _ _ _ _ T O), T. cbn [nth].
    destruct (Datetime.parse t3); [|reflexivity].
    cbv zeta. destruct (overlap _ _); reflexivity.
  - rewrite F1, F2. cbn [orb].
    destruct (weekday_form_tokens _ F3) as [t1 [bs [T W]]].
    rewrite (ranges_weekday e range _ _ _ T W), T. reflexivity.
Qed.

Lemma collect_Ok {A : Type} (rs : list (result A)) (l : list A) :
  collect rs = Ok l -> Forall2 (fun o r => o = Ok r) rs l.
Proof.
  revert l. induction rs as [|r rs IH]; intros l; simpl.
  - intros [= <-]. constructor.
  - destruct r as [x| | |]; simpl; try discriminate.
    destruct (collect rs) as [xs| | |]; simpl; try discriminate.
    intros [= <-]. constructor; [reflexivity|]. apply IH. reflexivity.
Qed.

Lemma collect_Throw {A : Type} (rs : list (result A)) (msg : string) :
  collect rs = Throw msg ->
  exists done rest, rs = (map Ok done ++ Throw msg :: rest)%list.
Proof.
  induction rs as [|r rs IH]; simpl; [discriminate|].
  destruct r as [x| | |]; simpl; try discriminate.
  - destruct (collect rs) as [xs| | |] eqn:C; simpl; try discriminate.
    intros [= <-]. destruct (IH eq_refl) as [done [rest ->]].
    exists (x :: done), rest. reflexivity.
  - intros [= <-]. exists [], rs. reflexivity.
Qed.

Lemma rangeFromTimeBlock_defined (block : string) (start end_ : Datetime.t) :
  rangeFromTimeBlock block start end_ <> Undefined /\
  rangeFromTimeBlock block start end_ <> OutOfFuel.
Proof.
  rewrite rangeFromTimeBlock_shape.
  destruct (block_shape block); split; discriminate.
Qed.

Lemma collect_defined {A : Type} (rs : list (result A)) :
  Forall (fun r => r <> Undefined /\ r <> OutOfFuel) rs ->
  collect rs <> Undefined /\ collect rs <> OutOfFuel.
Proof.
  induction 1 as [|r rs [H1 H2] _ IH]; simpl; [split; discriminate|].
  destruct r as [x| | |]; simpl; try (split; discriminate); try contradiction.
  destruct (collect rs); simpl; try (split; discriminate);
    destruct IH; contradiction.
Qed.

Lemma requested_defined (e : Exclusion) (range : Range) :
  Forall (fun r => r <> Undefined /\ r <> OutOfFuel) (requested e range).
Proof.
  unfold requested. destruct (_ || _).
  - destruct (Datetime.parse _); [cbv zeta; destruct (overlap _ _)|];
      repeat constructor; discriminate.
  - apply Forall_forall. intros o Ho. unfold decodings in Ho.
    apply in_flat_map in Ho as [d [_ Ho]].
    apply in_map_iff in Ho as [b [<- _]].
    apply rangeFromTimeBlock_defined.
Qed.

(** ** Day on/off rules *)

(** C7: a day on/off rule expands to at most one interval, the calendar day
    [date, date + 1 day) built from the fourth token, returned if and only if
    it overlaps the query bound (and when the fourth token is no date the
    call throws and returns nothing).  In particular
    "exc day off 2024-12-25" gives exactly
    [2024-12-25 00:00:00, 2024-12-26 00:00:00) over [2024-12-24, 2024-12-26)
    and nothing over [2024-01-01, 2024-06-01). *)
Theorem day_rule_ranges :
  (forall (line : string) (e : Exclusion) (range : Range) (date : Datetime.t),
     parse line = Ok e ->
     day_on_form (tokens e) = true \/ day_off_form (tokens e) = true ->
     Datetime.parse (nth 3 (tokens e) "") = Some date ->
     let day := mkRange date (date + Datetime.day_seconds) in
     ranges e range = Ok (if overlap range day then [day] else []) /\
     (forall l, ranges e range = Ok l -> (List.length l <= 1)%nat) /\
     (forall r, (exists l, ranges e range = Ok l /\ In r l) <->
                r = day /\ overlap range day = true)) /\
  (forall (line : string) (e : Exclusion) (range : Range),
     parse line = Ok e ->
     day_on_form (tokens e) = true \/ day_off_form (tokens e) = true ->
     Datetime.parse (nth 3 (tokens e) "") = None ->
     ranges e range = Throw (Datetime.InvalidDate (nth 3 (tokens e) ""))) /\
  ranges_of_line "exc day off 2024-12-25"
    (mkRange (at_time 2024 12 24 0 0 0) (at_time 2024 12 26 0 0 0))
  = Ok [mkRange (at_time 2024 12 25 0 0 0) (at_time 2024 12 26 0 0 0)] /\
  ranges_of_line "exc day off 2024-12-25"
    (mkRange (at_time 2024 1 1 0 0 0) (at_time 2024 6 1 0 0 0))
  = Ok [].
Proof.
  split; [|split; [|split; reflexivity]].
  2:{ intros line e range P F D.
      destruct (day_form_tokens _ F) as [t2 [t3 [T O]]].
      rewrite (ranges_day e range _ _ _ _ T O).
      rewrite T in *. cbn [nth] in *. rewrite D. reflexivity. }
  intros line e range date P F D day.
  destruct (day_form_tokens _ F) as [t2 [t3 [T O]]].
  assert (R : ranges e range = Ok (if overlap range day then [day] else [])).
  { rewrite (ranges_day e range _ _ _ _ T O).
    rewrite T in D. cbn [nth] in D. rewrite D. cbv zeta.
    change (mkRange date (Datetime.incr date)) with day.
    destruct (overlap range day); reflexivity. }
  split; [exact R|]. rewrite R. split.
  - intros l [= <-]. destruct (overlap range day); simpl; lia.
  - intros r. split.
    + intros [l [[= <-] I]].
      destruct (overlap range day); simpl in I; [|contradiction].
      destruct I as [<-|[]]. split; reflexivity.
    + intros [-> Ov]. rewrite Ov. exists [day]. split; [reflexivity|].
      left. reflexivity.
Qed.

Lemma day_rule_ranges_witness :
  ranges (mkExclusion ["exc"; "day"; "on"; "2016-03-01"] true)
         (mkRange (at_time 2016 2 29 12 0 0) (at_time 2016 3 1 12 0 0))
  = Ok [mkRange (at_time 2016 3 1 0 0 0) (at_time 2016 3 2 0 0 0)].
Proof.
  exact (proj1 (proj1 day_rule_ranges "exc  day on 2016-03-01"
                  (mkExclusion ["exc"; "day"; "on"; "2016-03-01"] true)
                  (mkRange (at_time 2016 2 29 12 0 0) (at_time 2016 3 1 12 0 0))
                  (at_time 2016 3 1 0 0 0)
                  eq_refl (or_introl eq_refl) eq_refl)).
Defined.

(** ** All or nothing *)

(** C9: [ranges] is atomic on failure.  For every rule built by [parse] and
    every bound the call ends in exactly one of two ways: it returns the
    complete sequence, one interval for each interval the rule asks for in
    the bound and in the same order, or it throws an error, one that
    building a requested interval raised, and returns no interval at all.
    The rule is an argument that [ranges] reads and does not give back, so
    it is unchanged. *)
Theorem ranges_all_or_nothing (line : string) (e : Exclusion) (range : Range) :
  parse line = Ok e ->
  (exists l, ranges e range = Ok l /\
             Forall2 (fun o r => o = Ok r) (requested e range) l) \/
  (exists msg done rest,
     ranges e range = Throw msg /\
     requested e range = (map Ok done ++ Throw msg :: rest)%list).
Proof.
  intros P. rewrite (ranges_requested line e range P).
  destruct (collect_defined _ (requested_defined e range)) as [U F].
  destruct (collect (requested e range)) as [l|msg| |] eqn:C;
    try contradiction.
  - left. exists l. split; [reflexivity|]. apply collect_Ok. exact C.
  - right. destruct (collect_Throw _ _ C) as [done [rest E]].
    exists msg, done, rest. split; [reflexivity|exact E].
Qed.

Lemma ranges_all_or_nothing_witness :
  (exists l,
     ranges (mkExclusion ["exc"; "friday"; "<09:00:00"; "notatime"] false)
            (mkRange (at_time 2016 1 8 0 0 0) (at_time 2016 1 9 0 0 0))
     = Ok l /\
     Forall2 (fun o r => o = Ok r)
       (requested (mkExclusion ["exc"; "friday"; "<09:00:00"; "notatime"] false)
          (mkRange (at_time 2016 1 8 0 0 0) (at_time 2016 1 9 0 0 0))) l) \/
  (exists msg done rest,
     ranges (mkExclusion ["exc"; "friday"; "<09:00:00"; "notatime"] false)
            (mkRange (at_time 2016 1 8 0 0 0) (at_time 2016 1 9 0 0 0))
     = Throw msg /\
     requested (mkExclusion ["exc"; "friday"; "<09:00:00"; "notatime"] false)
       (mkRange (at_time 2016 1 8 0 0 0) (at_time 2016 1 9 0 0 0))
     = (map Ok done ++ Throw msg :: rest)%list).
Proof.
  exact (ranges_all_or_nothing "exc friday <09:00:00 notatime"
           (mkExclusion ["exc"; "friday"; "<09:00:00"; "notatime"] false)
           (mkRange (at_time 2016 1 8 0 0 0) (at_time 2016 1 9 0 0 0))
           eq_refl).
Defined.

Example partial_results_are_dropped :
  requested (mkExclusion ["exc"; "friday"; "<09:00:00"; "notatime"] false)
    (mkRange (at_time 2016 1 8 0 0 0) (at_time 2016 1 9 0 0 0))
  = [Ok (mkRange (at_time 2016 1 8 0 0 0) (at_time 2016 1 8 9 0 0));
     Throw (MalformedBlockError "notatime")] /\
  ranges (mkExclusion ["exc"; "friday"; "<09:00:00"; "notatime"] false)
    (mkRange (at_time 2016 1 8 0 0 0) (at_time 2016 1 9 0 0 0))
  = Throw (MalformedBlockError "notatime").
Proof. split; reflexivity. Qed.

(** ** Order of the two ends of an interval *)

Lemma days_from_midnight (start : Datetime.t) (n : nat) (d : Datetime.t) :
  midnight start -> In d (days_from start n) -> midnight d.
Proof.
  unfold days_from, midnight, Datetime.day_seconds. intros M I.
  apply in_map_iff in I as [k [<- _]].
  rewrite Z.mod_add by lia. exact M.
Qed.

Lemma matched_days_midnight (dow : Z) (range : Range) (d : Datetime.t) :
  midnight (Rstart range) -> In d (matched_days dow range) -> midnight d.
Proof.
  unfold matched_days, walk_days. intros M I.
  apply filter_In in I as [I _].
  exact (days_from_midnight _ _ _ M I).
Qed.

Lemma decoded_ordered (block : string) (d : Datetime.t) (r : Range) :
  midnight d -> block_ordered block = true ->
  rangeFromTimeBlock block d (Datetime.incr d) = Ok r ->
  Rstart r <= Rend r.
Proof.
  unfold block_ordered. intros M O. rewrite rangeFromTimeBlock_shape.
  destruct (block_shape block) as [sh|] eqn:S; [|discriminate].
  intros [= <-].
  pose proof (startOfDay_midnight d M) as SD.
  destruct sh as [hms|hms|hms1 hms2]; cbn [shape_range Rstart Rend];
    rewrite ?on_day_seconds, ?SD; cbn [shape_ordered] in O.
  - apply block_shape_Before in S. lia.
  - apply Z.leb_le in O. unfold Datetime.incr. lia.
  - apply Z.leb_le in O. lia.
Qed.

Lemma collect_In {A : Type} (rs : list (result A)) (l : list A) (x : A) :
  collect rs = Ok l -> In x l -> In (Ok x) rs.
Proof.
  intros C I. apply collect_Ok in C.
  induction C as [|o r rs l E _ IH]; [contradiction|].
  destruct I as [<-|I]; [left; exact E|right; exact (IH I)].
Qed.

Lemma decodings_In (bs : list string) (days : list Datetime.t)
  (o : result Range) :
  In o (decodings bs days) ->
  exists d b, In d days /\ In b bs /\
              o = rangeFromTimeBlock b d (Datetime.incr d).
Proof.
  unfold decodings. intros I.
  apply in_flat_map in I as [d [Id I]].
  apply in_map_iff in I as [b [<- Ib]].
  exists d, b. auto.
Qed.

(** The claim C3 fails: a sub-range block whose first time is later than its
    second gives an interval whose start is after its end. *)
Lemma sub_range_interval_inverted :
  parse "exc monday 17:00:00-09:00:00"
    = Ok (mkExclusion ["exc"; "monday"; "17:00:00-09:00:00"] false) /\
  ranges (mkExclusion ["exc"; "monday"; "17:00:00-09:00:00"] false)
    (mkRange (at_time 2016 1 4 0 0 0) (at_time 2016 1 5 0 0 0))
    = Ok [mkRange (at_time 2016 1 4 17 0 0) (at_time 2016 1 4 9 0 0)] /\
  ~ (Rstart (mkRange (at_time 2016 1 4 17 0 0) (at_time 2016 1 4 9 0 0))
     <= Rend (mkRange (at_time 2016 1 4 17 0 0) (at_time 2016 1 4 9 0 0))).
Proof.
  split; [reflexivity|]. split; [reflexivity|].
  vm_compute. intros H. apply H. reflexivity.
Qed.

(** C3, amended: every interval of a day on/off rule has its start before
    its end.  For a weekday rule over a bound that starts at midnight every
    returned interval has start <= end provided each [>] block names a time
    not after 24:00:00 and each sub-range block names a first time not after
    its second.  The sub-range form, on any day, gives start <= end if and
    only if its first time is not after its second: the code neither orders
    nor rejects the pair. *)
Theorem ranges_interval_order :
  (forall (line : string) (e : Exclusion) (range : Range) (l : list Range),
     parse line = Ok e ->
     day_on_form (tokens e) = true \/ day_off_form (tokens e) = true ->
     ranges e range = Ok l ->
     forall r, In r l -> Rstart r < Rend r) /\
  (forall (line : string) (e : Exclusion) (range : Range) (l : list Range),
     parse line = Ok e ->
     weekday_form (tokens e) = true ->
     midnight (Rstart range) ->
     forallb block_ordered (skipn 2 (tokens e)) = true ->
     ranges e range = Ok l ->
     forall r, In r l -> Rstart r <= Rend r) /\
  (forall (block : string) (hms1 hms2 : Z * Z * Z) (start end_ : Datetime.t),
     block_shape block = Some (Between hms1 hms2) ->
     exists r, rangeFromTimeBlock block start end_ = Ok r /\
               (Rstart r <= Rend r <-> seconds hms1 <= seconds hms2)).
Proof.
  split; [|split].
  - intros line e range l P F R r I.
    destruct (day_form_tokens _ F) as [t2 [t3 [T O]]].
    rewrite (ranges_day e range _ _ _ _ T O) in R.
    destruct (Datetime.parse t3) as [date|]; [|discriminate].
    cbv zeta in R. destruct (overlap _ _); injection R as <-;
      [|contradiction].
    destruct I as [<-|[]]. cbn. unfold Datetime.incr, Datetime.day_seconds.
    lia.
  - intros line e range l P F M O R r I.
    destruct (weekday_form_tokens _ F) as [t1 [bs [T W]]].
    rewrite (ranges_weekday e range _ _ _ T W) in R.
    rewrite T in O. cbn [skipn] in O.
    pose proof (collect_In _ _ _ R I) as Io.
    apply decodings_In in Io as [d [b [Id [Ib E]]]].
    apply (decoded_ordered b d r).
    + exact (matched_days_midnight _ _ _ M Id).
    + rewrite forallb_forall in O. exact (O b Ib).
    + symmetry. exact E.
  - intros block hms1 hms2 start end_ S.
    rewrite rangeFromTimeBlock_shape, S. eexists. split; [reflexivity|].
    cbn [shape_range Rstart Rend]. rewrite !on_day_seconds. lia.
Qed.

Lemma ranges_interval_order_witness :
  Rstart (mkRange (at_time 2016 1 4 17 0 0) (at_time 2016 1 5 0 0 0))
  <= Rend (mkRange (at_time 2016 1 4 17 0 0) (at_time 2016 1 5 0 0 0)).
Proof.
  exact (proj1 (proj2 ranges_interval_order)
           "exc monday <09:00:00 12:00:00-13:00:00 >17:00:00"
           (mkExclusion
              ["exc"; "monday"; "<09:00:00"; "12:00:00-13:00:00"; ">17:00:00"]
              false)
           (mkRange (at_time 2016 1 4 0 0 0) (at_time 2016 1 5 0 0 0))
           [mkRange (at_time 2016 1 4 0 0 0) (at_time 2016 1 4 9 0 0);
            mkRange (at_time 2016 1 4 12 0 0) (at_time 2016 1 4 13 0 0);
            mkRange (at_time 2016 1 4 17 0 0) (at_time 2016 1 5 0 0 0)]
           eq_refl eq_refl eq_refl eq_refl eq_refl
           (mkRange (at_time 2016 1 4 17 0 0) (at_time 2016 1 5 0 0 0))
           (or_intror (or_intror (or_introl eq_refl)))).
Defined.

(** ** Weekday recurrence *)

Lemma filter_days_from (dow : Z) (start : Datetime.t) (n : nat) :
  filter (fun d => Datetime.dayOfWeek d =? dow) (days_from start n) =
  map (fun k => start + Z.of_nat k * Datetime.day_seconds)
      (filter (fun k => (Datetime.dayOfWeek start + Z.of_nat k) mod 7 =? dow)
              (seq 0 n)).
Proof.
  unfold days_from. induction (seq 0 n) as [|k ks IH]; [reflexivity|].
  cbn [map filter]. rewrite dayOfWeek_plus_days, IH.
  destruct (_ =? dow); reflexivity.
Qed.

Lemma day_count_whole_days (start : Datetime.t) (n : Z) :
  0 <= n ->
  day_count (mkRange start (start + n * Datetime.day_seconds)) start
  = Z.to_nat n.
Proof.
  intros Hn. unfold day_count, Datetime.day_seconds. cbn [Rend]. f_equal.
  replace (start + n * 86400 - start + 86399) with (86399 + n * 86400) by lia.
  rewrite Z.div_add by lia. reflexivity.
Qed.

Ltac eval_mod7 :=
  repeat match goal with
  | |- context [?a mod 7] =>
      let v := eval vm_compute in (a mod 7) in change (a mod 7) with v
  end.

Lemma matched_days_four_weeks (dow : Z) (start : Datetime.t) :
  0 <= dow < 7 ->
  matched_days dow (four_weeks start) =
  map (fun i => first_weekday dow start + i * 7 * Datetime.day_seconds)
      [0; 1; 2; 3].
Proof.
  intros Hd. unfold matched_days, walk_days, four_weeks. cbn [Rstart].
  rewrite (day_count_whole_days start 28) by lia.
  rewrite filter_days_from.
  unfold first_weekday.
  pose proof (dayOfWeek_range start) as Hw.
  set (w := Datetime.dayOfWeek start) in *.
  assert (C : (w = 0 \/ w = 1 \/ w = 2 \/ w = 3 \/ w = 4 \/ w = 5 \/ w = 6) /\
              (dow = 0 \/ dow = 1 \/ dow = 2 \/ dow = 3 \/ dow = 4 \/ dow = 5
               \/ dow = 6)) by lia.
  clearbody w. unfold Datetime.day_seconds.
  destruct C as [Cw Cd].
  repeat (destruct Cw as [Cw|Cw]); subst w;
    repeat (destruct Cd as [Cd|Cd]); subst dow;
    vm_compute filter; cbn [map];
    repeat (apply (f_equal2 (@cons Z)); [eval_mod7; lia|]);
    reflexivity.
Qed.

Lemma first_weekday_is (dow : Z) (start : Datetime.t) (i : Z) :
  0 <= dow < 7 ->
  Datetime.dayOfWeek (first_weekday dow start + i * 7 * Datetime.day_seconds)
  = dow.
Proof.
  intros Hd. unfold first_weekday.
  replace (start + (dow - Datetime.dayOfWeek start) mod 7 * Datetime.day_seconds
           + i * 7 * Datetime.day_seconds)
    with (start + ((dow - Datetime.dayOfWeek start) mod 7 + i * 7)
                  * Datetime.day_seconds) by lia.
  rewrite dayOfWeek_plus_days.
  pose proof (dayOfWeek_range start) as Hw.
  set (w := Datetime.dayOfWeek start) in *. clearbody w.
  rewrite Z.add_assoc, Z.mod_add by lia.
  rewrite Zplus_mod_idemp_r.
  replace (w + (dow - w)) with dow by lia.
  apply Z.mod_small. exact Hd.
Qed.

Lemma first_weekday_midnight (dow : Z) (start : Datetime.t) (i : Z) :
  midnight start ->
  midnight (first_weekday dow start + i * 7 * Datetime.day_seconds).
Proof.
  unfold midnight, first_weekday, Datetime.day_seconds. intros M.
  replace (start + (dow - Datetime.dayOfWeek start) mod 7 * 86400
           + i * 7 * 86400)
    with (start + ((dow - Datetime.dayOfWeek start) mod 7 + i * 7) * 86400)
    by lia.
  rewrite Z.mod_add by lia. exact M.
Qed.

Lemma parse_monday_rule :
  initialize "exc monday 09:00:00-09:30:00"
  = Ok (mkExclusion ["exc"; "monday"; "09:00:00-09:30:00"] false).
Proof. reflexivity. Qed.

Lemma monday_block_shape :
  block_shape "09:00:00-09:30:00" = Some (Between (9, 0, 0) (9, 30, 0)).
Proof. reflexivity. Qed.

Lemma dayOfWeek_startOfDay (t : Datetime.t) :
  Datetime.dayOfWeek (Datetime.startOfDay t) = Datetime.dayOfWeek t.
Proof.
  unfold Datetime.dayOfWeek, Datetime.startOfDay, Datetime.day_seconds.
  rewrite Z.div_mul by lia. reflexivity.
Qed.

Lemma startOfDay_is_midnight (t : Datetime.t) :
  midnight (Datetime.startOfDay t).
Proof.
  unfold midnight, Datetime.startOfDay, Datetime.day_seconds.
  apply Z.mod_mul. lia.
Qed.

Lemma monday_block_on (d : Datetime.t) :
  rangeFromTimeBlock "09:00:00-09:30:00" d (Datetime.incr d)
  = Ok (mkRange (Datetime.startOfDay d + 9 * 3600)
                (Datetime.startOfDay d + 9 * 3600 + 30 * 60)).
Proof.
  rewrite rangeFromTimeBlock_shape, monday_block_shape.
  cbn [shape_range]. rewrite !on_day_seconds.
  unfold seconds. do 2 f_equal; lia.
Qed.

(** C8: the rule parsed from "exc monday 09:00:00-09:30:00", expanded over a
    bound of exactly four weeks (28 days), yields exactly four intervals,
    each from 09:00:00 to 09:30:00 of a Monday, a week apart, and so each 30
    minutes long; when the bound is made of full calendar days (it starts at
    midnight) these four Mondays lie in the bound and are all the Mondays of
    the bound, so that there is one interval per Monday. *)
Theorem monday_rule_four_weeks (start : Datetime.t) :
  let monday := fun i =>
    Datetime.startOfDay
      (first_weekday 1 start + i * 7 * Datetime.day_seconds) in
  let l := map (fun i => mkRange (monday i + 9 * 3600)
                                 (monday i + 9 * 3600 + 30 * 60))
               [0; 1; 2; 3] in
  ranges_of_line "exc monday 09:00:00-09:30:00" (four_weeks start) = Ok l /\
  List.length l = 4%nat /\
  Forall (fun r => duration r = 30 * 60) l /\
  (forall i, In i [0; 1; 2; 3] ->
     Datetime.dayOfWeek (monday i) = 1 /\ midnight (monday i) /\
     monday (i + 1) = monday i + 7 * Datetime.day_seconds) /\
  (midnight start ->
   (forall i, In i [0; 1; 2; 3] ->
      Rstart (four_weeks start) <= monday i /\
      monday i + Datetime.day_seconds <= Rend (four_weeks start)) /\
   (forall t, Rstart (four_weeks start) <= t < Rend (four_weeks start) ->
      Datetime.dayOfWeek t = 1 ->
      exists i, In i [0; 1; 2; 3] /\
                monday i <= t < monday i + Datetime.day_seconds)).
Proof.
  intros monday l.
  assert (Hoff : 0 <= (1 - Datetime.dayOfWeek start) mod 7 < 7)
    by (apply Z.mod_pos_bound; lia).
  split; [|split; [reflexivity|split; [|split]]].
  - unfold ranges_of_line. rewrite parse_monday_rule. cbn [bind].
    rewrite (ranges_weekday
               (mkExclusion ["exc"; "monday"; "09:00:00-09:30:00"] false)
               (four_weeks start) "exc" "monday"
               ["09:00:00-09:30:00"] eq_refl) by discriminate.
    change (Datetime.dayOfWeekName "monday") with 1.
    rewrite matched_days_four_weeks by lia.
    cbn [map decodings flat_map app].
    rewrite !monday_block_on. reflexivity.
  - subst l. cbn [map]. repeat constructor; unfold duration; cbn; lia.
  - intros i I. split; [|split].
    + subst monday. cbv beta. rewrite dayOfWeek_startOfDay.
      apply first_weekday_is. lia.
    + apply startOfDay_is_midnight.
    + subst monday. cbv beta.
      unfold Datetime.startOfDay, Datetime.day_seconds.
      replace (first_weekday 1 start + (i + 1) * 7 * 86400)
        with (first_weekday 1 start + i * 7 * 86400 + 7 * 86400) by lia.
      rewrite Z.div_add by lia. lia.
  - intros M.
    assert (E : forall i, monday i
                          = first_weekday 1 start + i * 7 * Datetime.day_seconds).
    { intros i. subst monday. cbv beta. apply startOfDay_midnight.
      apply first_weekday_midnight. exact M. }
    split.
    + intros i I. rewrite E.
      unfold first_weekday, four_weeks, Datetime.day_seconds in *.
      cbn [Rstart Rend]. cbn [In] in I. lia.
    + intros t [Lo Hi] Mon.
      assert (G : exists i, In i [0; 1; 2; 3] /\
                  first_weekday 1 start + i * 7 * Datetime.day_seconds <= t
                  < first_weekday 1 start + i * 7 * Datetime.day_seconds
                    + Datetime.day_seconds).
      { clear E monday l.
        unfold first_weekday, four_weeks, midnight, Datetime.dayOfWeek,
          Datetime.day_seconds in *. cbn [Rstart Rend] in *.
        pose proof (Z.div_mod start 86400 ltac:(lia)) as Ds.
        rewrite M in Ds.
        pose proof (Z.div_mod t 86400 ltac:(lia)) as Dt.
        pose proof (Z.mod_pos_bound t 86400 ltac:(lia)) as Bt.
        set (q := start / 86400) in *. set (tq := t / 86400) in *.
        set (tr := t mod 86400) in *.
        pose proof (Z.div_mod (tq + 4) 7 ltac:(lia)) as D1. rewrite Mon in D1.
        pose proof (Z.div_mod (q + 4) 7 ltac:(lia)) as D2.
        pose proof (Z.mod_pos_bound (q + 4) 7 ltac:(lia)) as B2.
        set (w := (q + 4) mod 7) in *.
        pose proof (Z.div_mod (1 - w) 7 ltac:(lia)) as D3.
        set (o := (1 - w) mod 7) in *.
        set (a := (tq + 4) / 7) in *. set (b := (q + 4) / 7) in *.
        set (c := (1 - w) / 7) in *.
        exists (a - b + c). clearbody q tq tr w o a b c.
        assert (I : a - b + c = 0 \/ a - b + c = 1 \/ a - b + c = 2
                    \/ a - b + c = 3) by lia.
        split; [cbn [In]; lia|lia]. }
      destruct G as [i [I G]]. exists i. rewrite E. split; assumption.
Qed.

Lemma monday_rule_four_weeks_witness :
  ranges_of_line "exc monday 09:00:00-09:30:00"
    (mkRange (at_time 2016 1 6 0 0 0) (at_time 2016 2 3 0 0 0))
  = Ok [mkRange (at_time 2016 1 11 9 0 0) (at_time 2016 1 11 9 30 0);
        mkRange (at_time 2016 1 18 9 0 0) (at_time 2016 1 18 9 30 0);
        mkRange (at_time 2016 1 25 9 0 0) (at_time 2016 1 25 9 30 0);
        mkRange (at_time 2016 2 1 9 0 0) (at_time 2016 2 1 9 30 0)].
Proof.
  exact (proj1 (monday_rule_four_weeks (at_time 2016 1 6 0 0 0))).
Defined.

(** ** Days of a bound, and days the walk visits *)

Lemma days_from_spec (range : Range) (s0 d : Datetime.t) :
  In d (days_from s0 (day_count range s0)) <->
  exists k, 0 <= k /\ d = s0 + k * Datetime.day_seconds /\ d < Rend range.
Proof.
  unfold days_from, day_count, Datetime.day_seconds.
  pose proof (Z.div_mod (Rend range - s0 + 86399) 86400 ltac:(lia)) as D.
  pose proof (Z.mod_pos_bound (Rend range - s0 + 86399) 86400 ltac:(lia)) as B.
  set (Q := (Rend range - s0 + 86399) / 86400) in *.
  set (R := (Rend range - s0 + 86399) mod 86400) in *.
  clearbody Q R. split.
  - intros I. apply in_map_iff in I as [k [<- I]]. apply in_seq in I.
    exists (Z.of_nat k). split; [lia|]. split; [reflexivity|]. lia.
  - intros [k [K [-> L]]]. apply in_map_iff.
    exists (Z.to_nat k). split; [lia|]. apply in_seq. lia.
Qed.

Lemma walk_days_spec (range : Range) (d : Datetime.t) :
  In d (walk_days range) <->
  exists k, 0 <= k /\ d = Rstart range + k * Datetime.day_seconds
            /\ d < Rend range.
Proof. apply days_from_spec. Qed.

Lemma calendar_days_spec (range : Range) (d : Datetime.t) :
  In d (calendar_days range) <->
  midnight d /\
  exists t, Rstart range <= t < Rend range /\
            d <= t < d + Datetime.day_seconds.
Proof.
  unfold calendar_days, midnight.
  pose proof (Z.div_mod (Rstart range) 86400 ltac:(lia)) as Ds.
  pose proof (Z.mod_pos_bound (Rstart range) 86400 ltac:(lia)) as Bs.
  destruct (Rstart range <? Rend range) eqn:L.
  - apply Z.ltb_lt in L. cbv zeta. rewrite days_from_spec.
    unfold Datetime.startOfDay, Datetime.day_seconds in *. split.
    + intros [k [K [-> E]]]. split.
      * rewrite Z.mod_add by lia. apply Z.mod_mul. lia.
      * exists (Z.max (Rstart range)
                  (Rstart range / 86400 * 86400 + k * 86400)). lia.
    + intros [M [t [[T1 T2] [T3 T4]]]].
      pose proof (Z.div_mod d 86400 ltac:(lia)) as Dd. rewrite M in Dd.
      exists (d / 86400 - Rstart range / 86400). lia.
  - apply Z.ltb_ge in L. split; [contradiction|].
    intros [_ [t ?]]. lia.
Qed.

(** On a bound that starts at midnight the walk visits exactly the calendar
    days of the bound. *)
Lemma walk_days_calendar_days (range : Range) :
  midnight (Rstart range) -> walk_days range = calendar_days range.
Proof.
  intros M. unfold walk_days, calendar_days.
  rewrite (startOfDay_midnight _ M). cbv zeta.
  destruct (Rstart range <? Rend range) eqn:L; [reflexivity|].
  destruct (day_count range (Rstart range)) eqn:N; [reflexivity|].
  apply day_count_S in N as [N _]. congruence.
Qed.

Lemma matched_days_contains (range : Range) (dow : Z) :
  matched_days dow range <> [] -> contains_weekday range dow.
Proof.
  intros N. destruct (matched_days dow range) as [|d ds] eqn:E;
    [contradiction|].
  assert (I : In d (matched_days dow range)) by (rewrite E; left; reflexivity).
  unfold matched_days in I. apply filter_In in I as [I W].
  apply walk_days_spec in I as [k [K [-> L]]]. apply Z.eqb_eq in W.
  eexists. split; [|exact W]. unfold Datetime.day_seconds in *. lia.
Qed.

Lemma contains_matched_days (range : Range) (dow : Z) :
  midnight (Rstart range) ->
  contains_weekday range dow -> matched_days dow range <> [].
Proof.
  intros M [t [[T1 T2] W]] E.
  assert (I : In (Datetime.startOfDay t) (matched_days dow range)).
  { unfold matched_days. apply filter_In. split.
    - rewrite (walk_days_calendar_days _ M). apply calendar_days_spec.
      unfold midnight, Datetime.startOfDay, Datetime.day_seconds.
      split; [apply Z.mod_mul; lia|].
      exists t. split; [lia|].
      pose proof (Z.div_mod t 86400 ltac:(lia)).
      pose proof (Z.mod_pos_bound t 86400 ltac:(lia)). lia.
    - rewrite dayOfWeek_startOfDay. apply Z.eqb_eq. exact W. }
  rewrite E in I. contradiction.
Qed.

(** ** Deferred failure of a malformed block *)

Lemma parse_friday_rule :
  initialize "exc friday notatime"
  = Ok (mkExclusion ["exc"; "friday"; "notatime"] false).
Proof. reflexivity. Qed.

Lemma friday_rule_ranges (range : Range) :
  ranges_of_line "exc friday notatime" range =
  match matched_days 5 range with
  | [] => Ok []
  | _ :: _ => Throw (MalformedBlockError "notatime")
  end.
Proof.
  unfold ranges_of_line. rewrite parse_friday_rule. cbn [bind].
  rewrite (ranges_weekday (mkExclusion ["exc"; "friday"; "notatime"] false)
             range "exc" "friday" ["notatime"] eq_refl) by discriminate.
  change (Datetime.dayOfWeekName "friday") with 5.
  destruct (matched_days 5 range) as [|d ds]; [reflexivity|].
  cbn [decodings flat_map map app collect].
  rewrite rangeFromTimeBlock_shape. reflexivity.
Qed.

(** On any bound the rule throws only if the bound contains a Friday, and on
    a bound that starts at midnight it throws exactly when it does. *)
Lemma friday_rule_midnight_bound (range : Range) :
  (ranges_of_line "exc friday notatime" range
     = Throw (MalformedBlockError "notatime") -> contains_weekday range 5) /\
  (~ contains_weekday range 5 ->
     ranges_of_line "exc friday notatime" range = Ok []) /\
  (midnight (Rstart range) ->
     contains_weekday range 5 ->
     ranges_of_line "exc friday notatime" range
     = Throw (MalformedBlockError "notatime")).
Proof.
  rewrite friday_rule_ranges. split; [|split].
  - intros H. apply matched_days_contains.
    destruct (matched_days 5 range); [discriminate|discriminate].
  - intros N. destruct (matched_days 5 range) eqn:E; [reflexivity|].
    exfalso. apply N, matched_days_contains. rewrite E. discriminate.
  - intros M C. pose proof (contains_matched_days _ _ M C) as N.
    destruct (matched_days 5 range); [contradiction|reflexivity].
Qed.

(** C4 (the code departs from the claim): "exc friday notatime" parses, but
    over the bound [2016-01-07 13:00:00, 2016-01-08 10:00:00), whose last ten
    hours are a Friday, [ranges] returns the empty sequence and throws
    nothing: the walk steps from Thursday 13:00 to Friday 13:00, which is
    past the end of the bound. *)
Theorem friday_rule_misses_partial_friday :
  parse "exc friday notatime"
    = Ok (mkExclusion ["exc"; "friday"; "notatime"] false) /\
  contains_weekday
    (mkRange (at_time 2016 1 7 13 0 0) (at_time 2016 1 8 10 0 0)) 5 /\
  ranges_of_line "exc friday notatime"
    (mkRange (at_time 2016 1 7 13 0 0) (at_time 2016 1 8 10 0 0)) = Ok [].
Proof.
  split; [reflexivity|]. split; [|reflexivity].
  exists (at_time 2016 1 8 0 0 0). vm_compute.
  split; [split; [discriminate|reflexivity]|reflexivity].
Qed.

(** ** Open-ended blocks *)

(** On a day that starts at midnight the two open-ended forms give the
    intervals the spec describes. *)
Lemma open_ended_blocks_at_midnight (d : Datetime.t) :
  midnight d ->
  rangeFromTimeBlock ">17:00:00" d (Datetime.incr d)
    = Ok (mkRange (d + 17 * 3600) (d + Datetime.day_seconds)) /\
  rangeFromTimeBlock "<09:00:00" d (Datetime.incr d)
    = Ok (mkRange d (d + 9 * 3600)).
Proof.
  intros M. rewrite !rangeFromTimeBlock_shape.
  change (block_shape ">17:00:00") with (Some (After (17, 0, 0))).
  change (block_shape "<09:00:00") with (Some (Before (9, 0, 0))).
  cbn [shape_range]. rewrite !on_day_seconds, (startOfDay_midnight d M).
  unfold seconds, Datetime.incr. split; do 2 f_equal; lia.
Qed.

(** C6 (the code departs from the claim): the walk starts at the start of
    the bound and keeps its time of day, so on the bound
    [2016-01-04 13:00:00, 2016-01-05 13:00:00) the matched Monday 2016-01-04
    gets, for [>17:00:00], an interval that ends at 13:00:00 of the next day
    and, for [<09:00:00], an interval that starts at 13:00:00, instead of the
    intervals that end and start at midnight. *)
Theorem open_ended_blocks_off_midnight :
  ranges_of_line "exc monday >17:00:00 <09:00:00"
    (mkRange (at_time 2016 1 4 13 0 0) (at_time 2016 1 5 13 0 0))
  = Ok [mkRange (at_time 2016 1 4 17 0 0) (at_time 2016 1 5 13 0 0);
        mkRange (at_time 2016 1 4 13 0 0) (at_time 2016 1 4 9 0 0)] /\
  Datetime.dayOfWeek (at_time 2016 1 4 13 0 0) = 1 /\
  mkRange (at_time 2016 1 4 17 0 0) (at_time 2016 1 5 13 0 0)
    <> mkRange (at_time 2016 1 4 17 0 0) (at_time 2016 1 5 0 0 0) /\
  mkRange (at_time 2016 1 4 13 0 0) (at_time 2016 1 4 9 0 0)
    <> mkRange (at_time 2016 1 4 0 0 0) (at_time 2016 1 4 9 0 0).
Proof.
  split; [reflexivity|]. split; [reflexivity|].
  split; vm_compute; discriminate.
Qed.

(** ** Number and order of the intervals of a weekday rule *)

Lemma collect_map_Ok {A : Type} (l : list A) : collect (map Ok l) = Ok l.
Proof.
  induction l as [|x l IH]; [reflexivity|].
  cbn [map collect bind]. rewrite IH. reflexivity.
Qed.

Lemma decodings_well_formed (bs : list string) (days : list Datetime.t) :
  forallb well_formed bs = true ->
  decodings bs days =
  map Ok (flat_map (fun d => map (block_range d) bs) days).
Proof.
  intros W. unfold decodings.
  induction days as [|d days IH]; [reflexivity|].
  cbn [flat_map]. rewrite map_app, IH. f_equal.
  rewrite map_map. apply map_ext_in. intros b Ib.
  rewrite forallb_forall in W. specialize (W b Ib).
  unfold well_formed in W. unfold block_range.
  rewrite rangeFromTimeBlock_shape.
  destruct (block_shape b); [reflexivity|discriminate].
Qed.

Lemma length_flat_map_const {A B : Type} (f : A -> list B) (l : list A)
  (n : nat) :
  (forall a, List.length (f a) = n) ->
  List.length (flat_map f l) = (List.length l * n)%nat.
Proof.
  intros H. induction l as [|a l IH]; [reflexivity|].
  cbn [flat_map List.length]. rewrite length_app, H, IH. lia.
Qed.

(** For every bound, a weekday rule with well-formed blocks returns one
    interval per block for each day the walk visits and matches, by day and
    then by block; on a bound that starts at midnight these days are the
    calendar days of the bound that match. *)
Lemma weekday_rule_by_walk (line : string) (e : Exclusion) (range : Range) :
  parse line = Ok e ->
  weekday_form (tokens e) = true ->
  forallb well_formed (skipn 2 (tokens e)) = true ->
  let dow := Datetime.dayOfWeekName (nth 1 (tokens e) "") in
  let l := flat_map (fun d => map (block_range d) (skipn 2 (tokens e)))
             (matched_days dow range) in
  ranges e range = Ok l /\
  List.length l
  = (List.length (matched_days dow range)
     * List.length (skipn 2 (tokens e)))%nat /\
  (midnight (Rstart range) ->
   matched_days dow range
   = filter (fun d => Datetime.dayOfWeek d =? dow) (calendar_days range)).
Proof.
  intros P F W dow l.
  destruct (weekday_form_tokens _ F) as [t1 [bs [T N]]].
  split; [|split].
  - rewrite (ranges_weekday e range _ _ _ T N).
    subst l dow. rewrite T in *. cbn [skipn nth] in *.
    rewrite decodings_well_formed by exact W. apply collect_map_Ok.
  - subst l. apply length_flat_map_const. intros d. apply length_map.
  - intros M. unfold matched_days. rewrite walk_days_calendar_days by exact M.
    reflexivity.
Qed.

(** C10 (the code departs from the claim): over the bound
    [2016-01-04 13:00:00, 2016-01-11 10:00:00) two calendar days are Mondays,
    4 and 11 January, and the rule has one well-formed block, yet [ranges]
    returns one interval and not two: the walk steps from Sunday 13:00 to
    Monday 13:00, past the end of the bound, and never visits 11 January. *)
Theorem monday_rule_misses_partial_monday :
  parse "exc monday 09:00:00-09:30:00"
    = Ok (mkExclusion ["exc"; "monday"; "09:00:00-09:30:00"] false) /\
  forallb well_formed ["09:00:00-09:30:00"] = true /\
  filter (fun d => Datetime.dayOfWeek d =? 1)
    (calendar_days
       (mkRange (at_time 2016 1 4 13 0 0) (at_time 2016 1 11 10 0 0)))
    = [at_time 2016 1 4 0 0 0; at_time 2016 1 11 0 0 0] /\
  ranges (mkExclusion ["exc"; "monday"; "09:00:00-09:30:00"] false)
    (mkRange (at_time 2016 1 4 13 0 0) (at_time 2016 1 11 10 0 0))
    = Ok [mkRange (at_time 2016 1 4 9 0 0) (at_time 2016 1 4 9 30 0)].
Proof. repeat split; reflexivity. Qed.

(** * Further properties of the code *)

(** ** [initialize] *)

(** X1: [initialize] looks at a line only through its tokens: two lines with
    the same tokens build the same rule or both fail, each failure carrying
    its own line. *)
Theorem parse_by_tokens (l1 l2 : string) :
  split l1 = split l2 ->
  (forall r, parse l1 = Ok r <-> parse l2 = Ok r) /\
  (parse l1 = Throw (SyntaxError l1) <-> parse l2 = Throw (SyntaxError l2)).
Proof.
  intros S. unfold parse. rewrite !initialize_cases, <- S.
  destruct (split l1) as [|t0 [|t1 rest]];
    try (split; [intros r; split; discriminate|split; reflexivity]).
  destruct (String.eqb t0 "exc");
    try (split; [intros r; split; discriminate|split; reflexivity]).
  destruct (day_on_form _);
    [split; [reflexivity|split; discriminate]|].
  destruct (day_off_form _);
    [split; [reflexivity|split; discriminate]|].
  destruct (negb _);
    [split; [reflexivity|split; discriminate]|].
  split; [intros r; split; discriminate|split; reflexivity].
Qed.

Lemma parse_by_tokens_witness :
  parse "  exc   monday  <09:00:00 "
  = Ok (mkExclusion ["exc"; "monday"; "<09:00:00"] false).
Proof.
  exact (proj1 (proj1 (parse_by_tokens "exc monday <09:00:00"
                         "  exc   monday  <09:00:00 " eq_refl)
                  (mkExclusion ["exc"; "monday"; "<09:00:00"] false))
           eq_refl).
Defined.

Lemma initialize_invariant (line : string) (r : Exclusion) :
  parse line = Ok r ->
  (2 <= List.length (tokens r))%nat /\
  nth 0 (tokens r) "" = "exc" /\
  Forall (fun t => is_token t = true) (tokens r) /\
  additive r = day_on_form (tokens r).
Proof.
  intros H. destruct (initialize_ok_tokens line r H) as [T [t1 [rest S]]].
  rewrite T. split; [rewrite S; simpl; lia|].
  split; [rewrite S; reflexivity|].
  split; [apply split_tokens|].
  unfold parse in H. rewrite initialize_cases, S in H.
  cbn [String.eqb Ascii.eqb Bool.eqb] in H. rewrite <- S in H.
  destruct (day_on_form (split line)); [injection H as <-; reflexivity|].
  destruct (day_off_form (split line)); [injection H as <-; reflexivity|].
  destruct (negb _); [injection H as <-; reflexivity|discriminate].
Qed.

(** X2: the rule [initialize] builds keeps these invariants: at least two
    tokens, the first of them the marker, no token empty or with a blank in
    it, and an additive flag that is a function of the tokens (true exactly
    on the day-on form). *)
Theorem parsed_rule_invariant (line : string) (r : Exclusion) :
  parse line = Ok r ->
  (2 <= List.length (tokens r))%nat /\
  nth 0 (tokens r) "" = "exc" /\
  Forall (fun t => is_token t = true) (tokens r) /\
  additive r = day_on_form (tokens r).
Proof.
  intros H. destruct (initialize_ok_tokens line r H) as [T [t1 [rest S]]].
  rewrite T. split; [rewrite S; simpl; lia|].
  split; [rewrite S; reflexivity|].
  split; [apply split_tokens|].
  unfold parse in H. rewrite initialize_cases, S in H.
  cbn [String.eqb Ascii.eqb Bool.eqb] in H. rewrite <- S in H.
  destruct (day_on_form (split line)); [injection H as <-; reflexivity|].
  destruct (day_off_form (split line)); [injection H as <-; reflexivity|].
  destruct (negb _); [injection H as <-; reflexivity|discriminate].
Qed.

Lemma parsed_rule_invariant_witness :
  (2 <= List.length ["exc"; "day"; "on"; "2016-01-01"])%nat /\
  nth 0 ["exc"; "day"; "on"; "2016-01-01"] "" = "exc" /\
  Forall (fun t => is_token t = true) ["exc"; "day"; "on"; "2016-01-01"] /\
  true = day_on_form ["exc"; "day"; "on"; "2016-01-01"].
Proof.
  exact (parsed_rule_invariant "exc day on 2016-01-01"
           (mkExclusion ["exc"; "day"; "on"; "2016-01-01"] true) eq_refl).
Defined.

(** ** [serialize] and [dump] *)

Lemma split_go_trailing_newline (s : string) :
  forall cur,
    split_go cur (s ++ String "010"%char EmptyString) = split_go cur s.
Proof.
  induction s as [|c s IH]; intros cur.
  - destruct cur; reflexivity.
  - cbn [append split_go]. destruct (is_space c); [destruct cur|];
      rewrite IH; reflexivity.
Qed.

Lemma initialize_by_split (l1 l2 : string) (r : Exclusion) :
  split l1 = split l2 -> initialize l1 = Ok r -> initialize l2 = Ok r.
Proof.
  intros S H. rewrite initialize_cases in *. rewrite <- S.
  destruct (split l1) as [|t0 [|t1 rest]]; try discriminate.
  destruct (String.eqb t0 "exc"); [|discriminate].
  destruct (day_on_form _); [exact H|].
  destruct (day_off_form _); [exact H|].
  destruct (negb _); [exact H|discriminate].
Qed.

(** X3: what [serialize] writes after its leading "exc", and what [dump]
    writes after its leading label (the final newline included), is a line
    that [initialize] parses back to the very rule: same tokens, same
    flag. *)
Theorem serialize_dump_payload (line : string) (r : Exclusion) :
  parse line = Ok r ->
  (exists text, serialize r = "exc" ++ text /\ parse text = Ok r) /\
  (exists text, dump r = "Exclusion " ++ text /\ parse text = Ok r).
Proof.
  intros H. pose proof (parse_of_joined_tokens line r H) as J. split.
  - exists (join " " (tokens r)). split; [reflexivity|exact J].
  - exists (join " " (tokens r) ++ String "010"%char EmptyString).
    split; [reflexivity|].
    apply (initialize_by_split (join " " (tokens r))); [|exact J].
    unfold split. symmetry. apply split_go_trailing_newline.
Qed.

Lemma serialize_dump_payload_witness :
  (exists text,
     serialize (mkExclusion ["exc"; "monday"; "<09:00:00"] false)
     = "exc" ++ text /\
     parse text = Ok (mkExclusion ["exc"; "monday"; "<09:00:00"] false)) /\
  (exists text,
     dump (mkExclusion ["exc"; "monday"; "<09:00:00"] false)
     = "Exclusion " ++ text /\
     parse text = Ok (mkExclusion ["exc"; "monday"; "<09:00:00"] false)).
Proof.
  exact (serialize_dump_payload "exc  monday <09:00:00"
           (mkExclusion ["exc"; "monday"; "<09:00:00"] false) eq_refl).
Defined.

(** X4: [serialize] is injective on the rules [initialize] builds: two
    parsed rules with the same serialized text are the same rule. *)
Theorem serialize_injective (l1 l2 : string) (r1 r2 : Exclusion) :
  parse l1 = Ok r1 -> parse l2 = Ok r2 ->
  serialize r1 = serialize r2 -> r1 = r2.
Proof.
  intros H1 H2 E.
  destruct (initialize_invariant l1 r1 H1) as [_ [_ [T1 A1]]].
  destruct (initialize_invariant l2 r2 H2) as [_ [_ [T2 A2]]].
  unfold serialize in E. cbn [append] in E. injection E as E.
  assert (T : tokens r1 = tokens r2).
  { rewrite <- (split_join _ T1), <- (split_join _ T2), E. reflexivity. }
  destruct r1 as [t1 a1], r2 as [t2 a2]. cbn [tokens additive] in *.
  subst. reflexivity.
Qed.

Lemma serialize_injective_witness :
  mkExclusion ["exc"; "day"; "off"; "2016-01-01"] false
  = mkExclusion ["exc"; "day"; "off"; "2016-01-01"] false.
Proof.
  exact (serialize_injective "exc day off 2016-01-01"
           " exc day  off 2016-01-01"
           (mkExclusion ["exc"; "day"; "off"; "2016-01-01"] false)
           (mkExclusion ["exc"; "day"; "off"; "2016-01-01"] false)
           eq_refl eq_refl eq_refl).
Defined.

(** ** [ranges] on weekday rules *)

Lemma parsed_weekday_rule (line : string) (r : Exclusion) :
  parse line = Ok r -> weekday_form (tokens r) = true ->
  exists t1 bs,
    tokens r = "exc" :: t1 :: bs /\ Datetime.dayOfWeekName t1 <> -1 /\
    forall range,
      ranges r range =
      collect (decodings bs (matched_days (Datetime.dayOfWeekName t1) range)).
Proof.
  intros _ F. destruct (weekday_form_tokens _ F) as [t1 [bs [T W]]].
  exists t1, bs. split; [exact T|]. split; [exact W|].
  intros range. exact (ranges_weekday r range _ _ _ T W).
Qed.

Lemma decodings_no_blocks (days : list Datetime.t) : decodings [] days = [].
Proof. induction days as [|d days IH]; [reflexivity|exact IH]. Qed.

Lemma decodings_app (bs : list string) (xs ys : list Datetime.t) :
  decodings bs (xs ++ ys)%list
  = (decodings bs xs ++ decodings bs ys)%list.
Proof. unfold decodings. apply flat_map_app. Qed.

Lemma matched_days_empty_bound (dow : Z) (range : Range) :
  Rend range <= Rstart range -> matched_days dow range = [].
Proof.
  intros L. unfold matched_days, walk_days.
  assert (N : day_count range (Rstart range) = O).
  { unfold day_count.
    pose proof (Z.div_mod (Rend range - Rstart range + 86399) 86400
                  ltac:(lia)).
    pose proof (Z.mod_pos_bound (Rend range - Rstart range + 86399) 86400
                  ltac:(lia)).
    lia. }
  rewrite N. reflexivity.
Qed.

(** X5: a weekday rule without a time block (the marker and a weekday name
    only, which [initialize] accepts) expands to the empty sequence over
    every bound and never throws: the inner loop has nothing to run on. *)
Theorem weekday_rule_without_blocks_is_empty (line w : string)
  (r : Exclusion) (range : Range) :
  parse line = Ok r -> tokens r = ["exc"; w] -> ranges r range = Ok [].
Proof.
  intros H T. destruct (parse_forms line r H) as [_ F].
  rewrite T in F. cbn [day_on_form day_off_form] in F.
  destruct F as [F|[F|[_ [_ F]]]]; try discriminate.
  rewrite <- T in F.
  destruct (parsed_weekday_rule line r H F) as [t1 [bs [T' [_ R]]]].
  rewrite T in T'. injection T' as <- <-.
  rewrite R, decodings_no_blocks. reflexivity.
Qed.

Lemma weekday_rule_without_blocks_is_empty_witness :
  ranges (mkExclusion ["exc"; "monday"] false)
         (mkRange (at_time 2016 1 1 0 0 0) (at_time 2017 1 1 0 0 0))
  = Ok [].
Proof.
  exact (weekday_rule_without_blocks_is_empty "exc monday" "monday"
           (mkExclusion ["exc"; "monday"] false)
           (mkRange (at_time 2016 1 1 0 0 0) (at_time 2017 1 1 0 0 0))
           eq_refl eq_refl).
Defined.

(** X6: over a bound whose end is not after its start a weekday rule expands
    to the empty sequence, whatever its blocks: the outer loop does not run,
    so no block is decoded and a malformed block raises nothing. *)
Theorem weekday_rule_empty_bound (line : string) (r : Exclusion)
  (range : Range) :
  parse line = Ok r -> weekday_form (tokens r) = true ->
  Rend range <= Rstart range ->
  ranges r range = Ok [].
Proof.
  intros H F L.
  destruct (parsed_weekday_rule line r H F) as [t1 [bs [_ [_ R]]]].
  rewrite R, (matched_days_empty_bound _ _ L). reflexivity.
Qed.

Lemma weekday_rule_empty_bound_witness :
  ranges (mkExclusion ["exc"; "friday"; "notatime"] false)
         (mkRange (at_time 2016 1 8 12 0 0) (at_time 2016 1 8 12 0 0))
  = Ok [].
Proof.
  exact (weekday_rule_empty_bound "exc friday notatime"
           (mkExclusion ["exc"; "friday"; "notatime"] false)
           (mkRange (at_time 2016 1 8 12 0 0) (at_time 2016 1 8 12 0 0))
           eq_refl eq_refl ltac:(vm_compute; discriminate)).
Defined.

Lemma collect_first_malformed (bs : list string) (b : string)
  (start end_ : Datetime.t) :
  first_malformed bs = Some b ->
  collect (map (fun b => rangeFromTimeBlock b start end_) bs)
  = Throw (MalformedBlockError b).
Proof.
  unfold first_malformed. induction bs as [|x bs IH]; [discriminate|].
  cbn [find map collect]. rewrite (rangeFromTimeBlock_shape x).
  unfold well_formed at 1. destruct (block_shape x) eqn:S; cbn [negb bind].
  - intros F. rewrite (IH F). reflexivity.
  - intros [= <-]. reflexivity.
Qed.

Lemma first_malformed_none (bs : list string) :
  first_malformed bs = None -> forallb well_formed bs = true.
Proof.
  unfold first_malformed. induction bs as [|x bs IH]; [reflexivity|].
  cbn [find forallb]. destruct (well_formed x); cbn [negb andb];
    [exact IH|discriminate].
Qed.

Lemma weekday_ranges_outcome (bs : list string) (days : list Datetime.t) :
  match days, first_malformed bs with
  | [], _ => collect (decodings bs days) = Ok []
  | _ :: _, Some b => collect (decodings bs days)
                      = Throw (MalformedBlockError b)
  | _ :: _, None =>
      collect (decodings bs days)
      = Ok (flat_map (fun d => map (block_range d) bs) days)
  end.
Proof.
  destruct days as [|d days]; [reflexivity|].
  destruct (first_malformed bs) as [b|] eqn:F.
  - cbn [decodings flat_map]. rewrite collect_app.
    rewrite (collect_first_malformed _ _ _ _ F). reflexivity.
  - rewrite (decodings_well_formed _ _ (first_malformed_none _ F)).
    apply collect_map_Ok.
Qed.

(** X7: when [ranges] fails on a weekday rule.  If no day of the walk falls
    on the rule's weekday the result is the empty sequence, malformed blocks
    or not.  If some day does, the call throws exactly when one of the
    blocks is malformed, and the error names the first malformed block in
    token order; with no malformed block it returns. *)
Theorem weekday_rule_failure (line : string) (r : Exclusion) (range : Range) :
  parse line = Ok r -> weekday_form (tokens r) = true ->
  let dow := Datetime.dayOfWeekName (nth 1 (tokens r) "") in
  let bs := skipn 2 (tokens r) in
  (matched_days dow range = [] -> ranges r range = Ok []) /\
  (forall b, matched_days dow range <> [] -> first_malformed bs = Some b ->
             ranges r range = Throw (MalformedBlockError b)) /\
  (first_malformed bs = None -> exists l, ranges r range = Ok l) /\
  (forall msg, ranges r range = Throw msg ->
               matched_days dow range <> [] /\
               exists b, first_malformed bs = Some b /\
                         msg = MalformedBlockError b).
Proof.
  intros H F.
  destruct (parsed_weekday_rule line r H F) as [t1 [bs' [T [_ R]]]].
  rewrite T. cbn [nth skipn]. rewrite R.
  pose proof (weekday_ranges_outcome bs'
                (matched_days (Datetime.dayOfWeekName t1) range)) as O.
  destruct (matched_days (Datetime.dayOfWeekName t1) range) as [|d ds].
  - rewrite O. repeat split; try discriminate; try contradiction.
    exists []. reflexivity.
  - destruct (first_malformed bs') as [b|]; rewrite O.
    + split; [discriminate|]. split; [intros b' _ [= <-]; reflexivity|].
      split; [discriminate|]. intros msg [= <-].
      split; [discriminate|]. exists b. split; reflexivity.
    + split; [discriminate|]. split; [discriminate|].
      split; [eexists; reflexivity|discriminate].
Qed.

Lemma weekday_rule_failure_witness :
  ranges
    (mkExclusion ["exc"; "friday"; "<09:00:00"; "9:00"; ">17:00:00"; "x"] false)
    (mkRange (at_time 2016 1 4 0 0 0) (at_time 2016 1 11 0 0 0))
  = Throw (MalformedBlockError "9:00").
Proof.
  exact (proj1 (proj2
           (weekday_rule_failure "exc friday <09:00:00 9:00 >17:00:00 x"
              (mkExclusion
                 ["exc"; "friday"; "<09:00:00"; "9:00"; ">17:00:00"; "x"] false)
              (mkRange (at_time 2016 1 4 0 0 0) (at_time 2016 1 11 0 0 0))
              eq_refl eq_refl))
           "9:00" ltac:(vm_compute; discriminate) eq_refl).
Defined.

(** X8: over a bound that starts at midnight, a weekday rule with a malformed
    block throws if and only if some instant of the bound falls on the
    rule's weekday; the error is that of the first malformed block. *)
Theorem weekday_rule_midnight_bound (line : string) (r : Exclusion)
  (range : Range) (b : string) :
  parse line = Ok r -> weekday_form (tokens r) = true ->
  midnight (Rstart range) ->
  first_malformed (skipn 2 (tokens r)) = Some b ->
  let dow := Datetime.dayOfWeekName (nth 1 (tokens r) "") in
  (contains_weekday range dow ->
   ranges r range = Throw (MalformedBlockError b)) /\
  (~ contains_weekday range dow -> ranges r range = Ok []).
Proof.
  intros H F M B.
  destruct (parsed_weekday_rule line r H F) as [t1 [bs' [T [_ R]]]].
  rewrite T in *. cbn [nth skipn] in *. rewrite R.
  pose proof (weekday_ranges_outcome bs'
                (matched_days (Datetime.dayOfWeekName t1) range)) as O.
  rewrite B in O. split.
  - intros C. pose proof (contains_matched_days _ _ M C) as N.
    destruct (matched_days _ range); [contradiction|exact O].
  - intros C. destruct (matched_days _ range) eqn:E; [exact O|].
    exfalso. apply C, matched_days_contains. rewrite E. discriminate.
Qed.

Lemma weekday_rule_midnight_bound_witness :
  ranges (mkExclusion ["exc"; "friday"; "notatime"] false)
         (mkRange (at_time 2016 1 4 0 0 0) (at_time 2016 1 11 0 0 0))
  = Throw (MalformedBlockError "notatime").
Proof.
  apply (weekday_rule_midnight_bound "exc friday notatime"
           (mkExclusion ["exc"; "friday"; "notatime"] false)
           (mkRange (at_time 2016 1 4 0 0 0) (at_time 2016 1 11 0 0 0))
           "notatime" eq_refl eq_refl eq_refl eq_refl).
  exists (at_time 2016 1 8 10 0 0).
  split; [split; [vm_compute; discriminate|reflexivity]|reflexivity].
Defined.

(** ** [rangeFromTimeBlock] *)

Lemma block_shape_seconds (block : string) (sh : shape) :
  block_shape block = Some sh ->
  match sh with
  | Before hms | After hms => 0 <= seconds hms <= 362439
  | Between hms1 hms2 =>
      0 <= seconds hms1 <= 362439 /\ 0 <= seconds hms2 <= 362439
  end.
Proof.
  unfold block_shape.
  destruct (Pig.skip "<" (Pig.make block)) as [[|] p1].
  - destruct (Pig.getHMS p1) as [[h|] p2] eqn:G; [|discriminate].
    intros [= <-]. exact (getHMS_range _ _ _ G).
  - destruct (Pig.skip ">" p1) as [[|] p2].
    + destruct (Pig.getHMS p2) as [[h|] p3] eqn:G; [|discriminate].
      intros [= <-]. exact (getHMS_range _ _ _ G).
    + destruct (Pig.getHMS p2) as [[h|] p3] eqn:G1; [|discriminate].
      destruct (Pig.skip "-" p3) as [[|] p4]; [|discriminate].
      destruct (Pig.getHMS p4) as [[h2|] p5] eqn:G2; [|discriminate].
      intros [= <-]. split;
        [exact (getHMS_range _ _ _ G1)|exact (getHMS_range _ _ _ G2)].
Qed.

(** X9: the interval [rangeFromTimeBlock] builds, in seconds.  The time of a
    block is counted from the midnight of the calendar day of [start],
    whatever the time of day of [start]: [<T] gives [start, midnight + T),
    [>T] gives [midnight + T, end) and [T1-T2] gives
    [midnight + T1, midnight + T2), whose length is T2 - T1 on every day.
    Fields are two digits each and carry over, so a time is between 0 and
    362439 seconds (99:99:99); any other text throws the malformed-block
    error that names the block. *)
Theorem time_block_interval (block : string) (start end_ : Datetime.t) :
  let day := Datetime.startOfDay start in
  match block_shape block with
  | Some (Before hms) =>
      rangeFromTimeBlock block start end_
      = Ok (mkRange start (day + seconds hms)) /\
      0 <= seconds hms <= 362439
  | Some (After hms) =>
      rangeFromTimeBlock block start end_
      = Ok (mkRange (day + seconds hms) end_) /\
      0 <= seconds hms <= 362439
  | Some (Between hms1 hms2) =>
      rangeFromTimeBlock block start end_
      = Ok (mkRange (day + seconds hms1) (day + seconds hms2)) /\
      duration (mkRange (day + seconds hms1) (day + seconds hms2))
      = seconds hms2 - seconds hms1 /\
      0 <= seconds hms1 <= 362439 /\ 0 <= seconds hms2 <= 362439
  | None =>
      rangeFromTimeBlock block start end_ = Throw (MalformedBlockError block)
  end.
Proof.
  cbv zeta. rewrite rangeFromTimeBlock_shape.
  destruct (block_shape block) as [sh|] eqn:S; [|reflexivity].
  pose proof (block_shape_seconds _ _ S) as B.
  destruct sh as [hms|hms|hms1 hms2]; cbn [shape_range];
    rewrite ?on_day_seconds.
  - split; [reflexivity|exact B].
  - split; [reflexivity|exact B].
  - split; [reflexivity|]. split; [unfold duration; cbn; lia|exact B].
Qed.

Lemma skip_app (c : ascii) (p p' x : string) :
  Pig.skip c p = (true, p') -> Pig.skip c (p ++ x) = (true, p' ++ x).
Proof.
  unfold Pig.skip. destruct p as [|c' rest]; [discriminate|].
  cbn [append]. destruct (Ascii.eqb c' c); [|discriminate].
  intros [= <-]. reflexivity.
Qed.

Lemma skip_false_app (c : ascii) (p p' x : string) :
  p <> "" -> Pig.skip c p = (false, p') ->
  Pig.skip c (p ++ x) = (false, p ++ x) /\ p' = p.
Proof.
  unfold Pig.skip. destruct p as [|c' rest]; [contradiction|].
  cbn [append]. destruct (Ascii.eqb c' c); [discriminate|].
  intros _ [= <-]. split; reflexivity.
Qed.

Lemma getDigit2_app (p p' x : string) (n : Z) :
  Pig.getDigit2 p = (Some n, p') ->
  Pig.getDigit2 (p ++ x) = (Some n, p' ++ x).
Proof.
  unfold Pig.getDigit2. destruct p as [|a [|b rest]]; try discriminate.
  cbn [append].
  destruct (Datetime.digit a); [|discriminate].
  destruct (Datetime.digit b); [|discriminate].
  intros H. assert (E : p' = rest) by congruence. subst p'.
  assert (E : n = 10 * z + z0) by congruence. subst n. reflexivity.
Qed.

Lemma getHMS_app (p p' x : string) (hms : Z * Z * Z) :
  Pig.getHMS p = (Some hms, p') ->
  Pig.getHMS (p ++ x) = (Some hms, p' ++ x).
Proof.
  unfold Pig.getHMS.
  destruct (Pig.getDigit2 p) as [[hh|] p1] eqn:H1; [|discriminate].
  rewrite (getDigit2_app _ _ x _ H1).
  destruct (Pig.skip ":" p1) as [[|] p2] eqn:S1; [|discriminate].
  rewrite (skip_app _ _ _ x S1).
  destruct (Pig.getDigit2 p2) as [[mm|] p3] eqn:H2; [|discriminate].
  rewrite (getDigit2_app _ _ x _ H2).
  destruct (Pig.skip ":" p3) as [[|] p4] eqn:S2; [|discriminate].
  rewrite (skip_app _ _ _ x S2).
  destruct (Pig.getDigit2 p4) as [[ss|] p5] eqn:H3; [|discriminate].
  rewrite (getDigit2_app _ _ x _ H3).
  intros H. assert (E : p' = p5) by congruence.
  assert (E' : hms = (hh, mm, ss)) by congruence. subst. reflexivity.
Qed.

Lemma block_shape_app (block x : string) (sh : shape) :
  block_shape block = Some sh -> block_shape (block ++ x) = Some sh.
Proof.
  unfold block_shape, Pig.make.
  destruct block as [|c rest]; [discriminate|].
  set (b := String c rest).
  assert (N : b <> "") by discriminate.
  destruct (Pig.skip "<" b) as [[|] p1] eqn:S1.
  - rewrite (skip_app _ _ _ x S1).
    destruct (Pig.getHMS p1) as [[h|] p2] eqn:G; [|discriminate].
    rewrite (getHMS_app _ _ x _ G). auto.
  - destruct (skip_false_app _ _ _ x N S1) as [-> ->].
    destruct (Pig.skip ">" b) as [[|] p2] eqn:S2.
    + rewrite (skip_app _ _ _ x S2).
      destruct (Pig.getHMS p2) as [[h|] p3] eqn:G; [|discriminate].
      rewrite (getHMS_app _ _ x _ G). auto.
    + destruct (skip_false_app _ _ _ x N S2) as [-> ->].
      destruct (Pig.getHMS b) as [[h|] p3] eqn:G1; [|discriminate].
      rewrite (getHMS_app _ _ x _ G1).
      destruct (Pig.skip "-" p3) as [[|] p4] eqn:S3; [|discriminate].
      rewrite (skip_app _ _ _ x S3).
      destruct (Pig.getHMS p4) as [[h2|] p5] eqn:G2; [|discriminate].
      rewrite (getHMS_app _ _ x _ G2). auto.
Qed.

(** X10: [rangeFromTimeBlock] never looks past the time it reads: whatever
    follows a well-formed block in the same token is ignored, and the
    interval is that of the block alone. *)
Theorem time_block_trailing_text (block rest : string)
  (start end_ : Datetime.t) :
  well_formed block = true ->
  rangeFromTimeBlock (block ++ rest) start end_
  = rangeFromTimeBlock block start end_.
Proof.
  unfold well_formed. intros W. rewrite !rangeFromTimeBlock_shape.
  destruct (block_shape block) as [sh|] eqn:S; [|discriminate].
  rewrite (block_shape_app _ rest _ S). reflexivity.
Qed.

Lemma time_block_trailing_text_witness :
  rangeFromTimeBlock "<09:00:00pm,>17:00:00" (at_time 2016 1 4 0 0 0)
    (at_time 2016 1 5 0 0 0)
  = rangeFromTimeBlock "<09:00:00" (at_time 2016 1 4 0 0 0)
      (at_time 2016 1 5 0 0 0).
Proof.
  exact (time_block_trailing_text "<09:00:00" "pm,>17:00:00"
           (at_time 2016 1 4 0 0 0) (at_time 2016 1 5 0 0 0) eq_refl).
Defined.

(** ** How [ranges] composes on weekday rules *)

Lemma days_from_app (start : Datetime.t) (a b : nat) :
  days_from start (a + b)
  = (days_from start a
     ++ days_from (start + Z.of_nat a * Datetime.day_seconds) b)%list.
Proof.
  revert start. induction a as [|a IH]; intros start.
  - cbn [Nat.add days_from seq map app]. unfold days_from.
    apply map_ext. intros k. lia.
  - cbn [Nat.add]. rewrite !days_from_S, IH. cbn [app]. do 3 f_equal.
    unfold Datetime.incr, Datetime.day_seconds. lia.
Qed.

Lemma day_count_split (s en k : Z) :
  0 <= k -> s + k * Datetime.day_seconds <= en ->
  day_count (mkRange s en) s
  = (Z.to_nat k
     + day_count (mkRange (s + k * Datetime.day_seconds) en)
         (s + k * Datetime.day_seconds))%nat.
Proof.
  unfold day_count, Datetime.day_seconds. cbn [Rend]. intros K L.
  replace (en - s + 86399) with (en - (s + k * 86400) + 86399 + k * 86400)
    by lia.
  rewrite Z.div_add by lia.
  pose proof (Z.div_mod (en - (s + k * 86400) + 86399) 86400 ltac:(lia)).
  pose proof (Z.mod_pos_bound (en - (s + k * 86400) + 86399) 86400
                ltac:(lia)).
  lia.
Qed.

Lemma matched_days_split (dow s en k : Z) :
  0 <= k -> s + k * Datetime.day_seconds <= en ->
  matched_days dow (mkRange s en)
  = (matched_days dow (mkRange s (s + k * Datetime.day_seconds))
     ++ matched_days dow (mkRange (s + k * Datetime.day_seconds) en))%list.
Proof.
  intros K L. unfold matched_days, walk_days. cbn [Rstart].
  rewrite (day_count_split s en k K L), days_from_app, filter_app.
  rewrite (day_count_whole_days s k K), Z2Nat.id by lia. reflexivity.
Qed.

(** X11: cutting a bound a whole number of days after its start cuts the
    result: for a weekday rule, the expansion over [s, e) is the expansion
    over [s, m) followed by the expansion over [m, e), and it throws when
    either part throws, the first part's error first. *)
Theorem weekday_rule_split_bound (line : string) (r : Exclusion)
  (s en k : Z) :
  parse line = Ok r -> weekday_form (tokens r) = true ->
  0 <= k -> s + k * Datetime.day_seconds <= en ->
  ranges r (mkRange s en) =
  (l1 <- ranges r (mkRange s (s + k * Datetime.day_seconds)) ;;
   l2 <- ranges r (mkRange (s + k * Datetime.day_seconds) en) ;;
   Ok (l1 ++ l2)%list).
Proof.
  intros H F K L.
  destruct (parsed_weekday_rule line r H F) as [t1 [bs [_ [_ R]]]].
  rewrite !R, (matched_days_split _ s en k K L), decodings_app.
  apply collect_app.
Qed.

Lemma weekday_rule_split_bound_witness :
  ranges (mkExclusion ["exc"; "monday"; "<09:00:00"] false)
    (mkRange (at_time 2016 1 1 8 0 0) (at_time 2016 1 20 0 0 0)) =
  (l1 <- ranges (mkExclusion ["exc"; "monday"; "<09:00:00"] false)
           (mkRange (at_time 2016 1 1 8 0 0)
              (at_time 2016 1 1 8 0 0 + 5 * Datetime.day_seconds)) ;;
   l2 <- ranges (mkExclusion ["exc"; "monday"; "<09:00:00"] false)
           (mkRange (at_time 2016 1 1 8 0 0 + 5 * Datetime.day_seconds)
              (at_time 2016 1 20 0 0 0)) ;;
   Ok (l1 ++ l2)%list).
Proof.
  exact (weekday_rule_split_bound "exc monday <09:00:00"
           (mkExclusion ["exc"; "monday"; "<09:00:00"] false)
           (at_time 2016 1 1 8 0 0) (at_time 2016 1 20 0 0 0) 5
           eq_refl eq_refl ltac:(vm_compute; discriminate)
           ltac:(vm_compute; discriminate)).
Defined.

Lemma startOfDay_plus_days (x k : Z) :
  Datetime.startOfDay (x + k * Datetime.day_seconds)
  = Datetime.startOfDay x + k * Datetime.day_seconds.
Proof.
  unfold Datetime.startOfDay, Datetime.day_seconds.
  rewrite Z.div_add by lia. lia.
Qed.

Lemma rangeFromTimeBlock_plus_days (block : string) (d k : Z) :
  rangeFromTimeBlock block (d + k * Datetime.day_seconds)
    (Datetime.incr (d + k * Datetime.day_seconds))
  = (x <- rangeFromTimeBlock block d (Datetime.incr d) ;;
     Ok (shift_range (k * Datetime.day_seconds) x)).
Proof.
  rewrite !rangeFromTimeBlock_shape.
  destruct (block_shape block) as [sh|]; [|reflexivity].
  cbn [bind]. f_equal. unfold shift_range.
  destruct sh as [hms|hms|hms1 hms2]; cbn [shape_range Rstart Rend];
    rewrite !on_day_seconds, !startOfDay_plus_days;
    unfold Datetime.incr; f_equal; lia.
Qed.

Lemma collect_shift (delta : Z) (rs : list (result Range)) :
  collect (map (fun o => x <- o ;; Ok (shift_range delta x)) rs)
  = (l <- collect rs ;; Ok (map (shift_range delta) l)).
Proof.
  induction rs as [|o rs IH]; [reflexivity|].
  cbn [map collect]. destruct o as [x| | |]; cbn [bind]; try reflexivity.
  rewrite IH. destruct (collect rs); reflexivity.
Qed.

Lemma matched_days_shift_weeks (dow j : Z) (range : Range) :
  matched_days dow (shift_range (j * 7 * Datetime.day_seconds) range)
  = map (fun d => d + j * 7 * Datetime.day_seconds) (matched_days dow range).
Proof.
  unfold matched_days, walk_days, shift_range. cbn [Rstart].
  assert (N : day_count
                (mkRange (Rstart range + j * 7 * Datetime.day_seconds)
                   (Rend range + j * 7 * Datetime.day_seconds))
                (Rstart range + j * 7 * Datetime.day_seconds)
              = day_count range (Rstart range)).
  { unfold day_count. cbn [Rend]. f_equal. f_equal. lia. }
  rewrite N. unfold days_from.
  induction (seq 0 (day_count range (Rstart range))) as [|n ns IH];
    [reflexivity|].
  cbn [map filter].
  replace (Rstart range + j * 7 * Datetime.day_seconds
           + Z.of_nat n * Datetime.day_seconds)
    with (Rstart range + Z.of_nat n * Datetime.day_seconds
          + (j * 7) * Datetime.day_seconds) by lia.
  rewrite (dayOfWeek_plus_days _ (j * 7)).
  rewrite Z.mod_add by lia.
  rewrite (Z.mod_small _ 7) by apply dayOfWeek_range.
  destruct (_ =? dow); cbn [map]; rewrite IH; repeat f_equal; lia.
Qed.

(** X12: the recurrence is weekly.  Moving the bound by a whole number of
    weeks, forwards or backwards, moves every interval of a weekday rule by
    as much and changes nothing else, its failure included. *)
Theorem weekday_rule_week_shift (line : string) (r : Exclusion)
  (range : Range) (j : Z) :
  parse line = Ok r -> weekday_form (tokens r) = true ->
  ranges r (shift_range (j * 7 * Datetime.day_seconds) range) =
  (l <- ranges r range ;;
   Ok (map (shift_range (j * 7 * Datetime.day_seconds)) l)).
Proof.
  intros H F.
  destruct (parsed_weekday_rule line r H F) as [t1 [bs [_ [_ R]]]].
  rewrite !R, matched_days_shift_weeks, <- collect_shift. f_equal.
  unfold decodings.
  induction (matched_days (Datetime.dayOfWeekName t1) range) as [|d ds IH];
    [reflexivity|].
  cbn [map flat_map]. rewrite map_app, IH. f_equal.
  rewrite map_map. apply map_ext. intros b.
  replace (j * 7 * Datetime.day_seconds) with ((j * 7) * Datetime.day_seconds)
    by lia.
  apply rangeFromTimeBlock_plus_days.
Qed.

Lemma weekday_rule_week_shift_witness :
  ranges (mkExclusion ["exc"; "monday"; ">17:00:00"] false)
    (shift_range (-3 * 7 * Datetime.day_seconds)
       (mkRange (at_time 2016 1 22 13 0 0) (at_time 2016 2 1 10 0 0))) =
  (l <- ranges (mkExclusion ["exc"; "monday"; ">17:00:00"] false)
          (mkRange (at_time 2016 1 22 13 0 0) (at_time 2016 2 1 10 0 0)) ;;
   Ok (map (shift_range (-3 * 7 * Datetime.day_seconds)) l)).
Proof.
  exact (weekday_rule_week_shift "exc monday >17:00:00"
           (mkExclusion ["exc"; "monday"; ">17:00:00"] false)
           (mkRange (at_time 2016 1 22 13 0 0) (at_time 2016 2 1 10 0 0))
           (-3) eq_refl eq_refl).
Defined.

(** ** The intervals of a weekday rule *)

Lemma days_from_sorted (n : nat) :
  forall start, StronglySorted Z.lt (days_from start n).
Proof.
  induction n as [|n IH]; intros start; [constructor|].
  rewrite days_from_S. constructor; [apply IH|].
  apply Forall_forall. intros d I. unfold days_from in I.
  apply in_map_iff in I as [k [<- _]].
  unfold Datetime.incr, Datetime.day_seconds. lia.
Qed.

Lemma filter_sorted (f : Z -> bool) (l : list Z) :
  StronglySorted Z.lt l -> StronglySorted Z.lt (filter f l).
Proof.
  induction 1 as [|x l S IH F]; [constructor|].
  cbn [filter]. destruct (f x); [|exact IH].
  constructor; [exact IH|].
  apply Forall_forall. intros y I. apply filter_In in I as [I _].
  rewrite Forall_forall in F. exact (F y I).
Qed.

(** X13: what a weekday rule with no malformed block returns, for every
    bound.  The days it works on are the datetimes range.start + k days
    (k = 0, 1, ...) that are before range.end and fall on the rule's
    weekday; they come in strictly increasing order.  The result is, day by
    day, one interval per block in token order: nothing is merged, dropped
    or sorted, and the length is the number of days times the number of
    blocks. *)
Theorem weekday_rule_intervals (line : string) (r : Exclusion)
  (range : Range) :
  parse line = Ok r -> weekday_form (tokens r) = true ->
  first_malformed (skipn 2 (tokens r)) = None ->
  let dow := Datetime.dayOfWeekName (nth 1 (tokens r) "") in
  let bs := skipn 2 (tokens r) in
  let days := matched_days dow range in
  ranges r range = Ok (flat_map (fun d => map (block_range d) bs) days) /\
  List.length (flat_map (fun d => map (block_range d) bs) days)
  = (List.length days * List.length bs)%nat /\
  StronglySorted Z.lt days /\
  (forall d, In d days <->
             (exists k, 0 <= k /\
                        d = Rstart range + k * Datetime.day_seconds) /\
             d < Rend range /\ Datetime.dayOfWeek d = dow).
Proof.
  intros H F M.
  destruct (parsed_weekday_rule line r H F) as [t1 [bs' [T [_ R]]]].
  rewrite T in *. cbn [nth skipn] in *. cbv zeta.
  split; [|split; [|split]].
  - rewrite R, (decodings_well_formed _ _ (first_malformed_none _ M)).
    apply collect_map_Ok.
  - apply length_flat_map_const. intros d. apply length_map.
  - unfold matched_days, walk_days. apply filter_sorted, days_from_sorted.
  - intros d. unfold matched_days. rewrite filter_In, walk_days_spec, Z.eqb_eq.
    split.
    + intros [[k [K [E L]]] W]. split; [exists k; auto|auto].
    + intros [[k [K E]] [L W]]. split; [exists k; auto|auto].
Qed.

Lemma weekday_rule_intervals_witness :
  ranges (mkExclusion ["exc"; "monday"; ">17:00:00"; "<09:00:00"] false)
    (mkRange (at_time 2016 1 4 0 0 0) (at_time 2016 1 12 0 0 0))
  = Ok [mkRange (at_time 2016 1 4 17 0 0) (at_time 2016 1 5 0 0 0);
        mkRange (at_time 2016 1 4 0 0 0) (at_time 2016 1 4 9 0 0);
        mkRange (at_time 2016 1 11 17 0 0) (at_time 2016 1 12 0 0 0);
        mkRange (at_time 2016 1 11 0 0 0) (at_time 2016 1 11 9 0 0)].
Proof.
  exact (proj1 (weekday_rule_intervals "exc monday >17:00:00 <09:00:00"
                  (mkExclusion ["exc"; "monday"; ">17:00:00"; "<09:00:00"]
                     false)
                  (mkRange (at_time 2016 1 4 0 0 0) (at_time 2016 1 12 0 0 0))
                  eq_refl eq_refl eq_refl)).
Defined.

Lemma matched_days_one_day (dow : Z) (range : Range) :
  Rstart range < Rend range ->
  Rend range <= Rstart range + Datetime.day_seconds ->
  Datetime.dayOfWeek (Rstart range) = dow ->
  matched_days dow range = [Rstart range].
Proof.
  unfold Datetime.day_seconds. intros L1 L2 W.
  unfold matched_days, walk_days.
  assert (N : day_count range (Rstart range) = 1%nat).
  { unfold day_count.
    pose proof (Z.div_mod (Rend range - Rstart range + 86399) 86400
                  ltac:(lia)).
    pose proof (Z.mod_pos_bound (Rend range - Rstart range + 86399) 86400
                  ltac:(lia)).
    lia. }
  rewrite N. unfold days_from. cbn [seq map filter].
  replace (Rstart range + Z.of_nat 0 * Datetime.day_seconds)
    with (Rstart range) by lia.
  rewrite W, Z.eqb_refl. reflexivity.
Qed.

(** X14: the intervals of a weekday rule are not cut to the bound nor
    filtered by it (only a day on/off rule tests an overlap).  Over any
    bound of at most one day that starts on the rule's weekday, however
    short, every block of the rule is returned whole, those that lie
    outside the bound included. *)
Theorem weekday_rule_not_clipped (line : string) (r : Exclusion)
  (range : Range) :
  parse line = Ok r -> weekday_form (tokens r) = true ->
  first_malformed (skipn 2 (tokens r)) = None ->
  Rstart range < Rend range ->
  Rend range <= Rstart range + Datetime.day_seconds ->
  Datetime.dayOfWeek (Rstart range)
  = Datetime.dayOfWeekName (nth 1 (tokens r) "") ->
  ranges r range
  = Ok (map (block_range (Rstart range)) (skipn 2 (tokens r))).
Proof.
  intros H F M L1 L2 W.
  destruct (parsed_weekday_rule line r H F) as [t1 [bs [T [_ R]]]].
  rewrite T in *. cbn [nth skipn] in *.
  rewrite R, (matched_days_one_day _ _ L1 L2 W).
  rewrite (decodings_well_formed _ _ (first_malformed_none _ M)).
  rewrite collect_map_Ok. cbn [flat_map]. rewrite app_nil_r. reflexivity.
Qed.

Lemma weekday_rule_not_clipped_witness :
  ranges (mkExclusion ["exc"; "monday"; "09:00:00-09:30:00"] false)
    (mkRange (at_time 2016 1 4 12 0 0) (at_time 2016 1 4 12 0 1))
  = Ok [mkRange (at_time 2016 1 4 9 0 0) (at_time 2016 1 4 9 30 0)].
Proof.
  exact (weekday_rule_not_clipped "exc monday 09:00:00-09:30:00"
           (mkExclusion ["exc"; "monday"; "09:00:00-09:30:00"] false)
           (mkRange (at_time 2016 1 4 12 0 0) (at_time 2016 1 4 12 0 1))
           eq_refl eq_refl eq_refl eq_refl ltac:(vm_compute; discriminate)
           eq_refl).
Defined.

(** ** Indexing of the tokens in [ranges] *)

Lemma decodings_defined (bs : list string) (days : list Datetime.t) :
  Forall (fun o => o <> Undefined /\ o <> OutOfFuel) (decodings bs days).
Proof.
  apply Forall_forall. intros o Ho.
  apply decodings_In in Ho as [d [b [_ [_ ->]]]].
  apply rangeFromTimeBlock_defined.
Qed.

Lemma walk_defined (e : Exclusion) (dow : Z) (range : Range) :
  walk (walk_fuel range) e dow range (Rstart range) [] <> Undefined /\
  walk (walk_fuel range) e dow range (Rstart range) [] <> OutOfFuel.
Proof.
  rewrite (walk_collect e dow range _ _ _ _ eq_refl (day_count_fuel range)).
  destruct (collect_defined _
              (decodings_defined (skipn 2 (tokens e))
                 (filter (fun d => Datetime.dayOfWeek d =? dow)
                    (days_from (Rstart range)
                       (day_count range (Rstart range)))))) as [U F].
  destruct (collect _); try contradiction; split; discriminate.
Qed.

(** X15: [ranges] indexes [_tokens] without checking its size.  It reads out
    of range exactly on a token vector with fewer than two tokens, on the
    two tokens [_, "day"], and on the three tokens [_, "day", "on"] or
    [_, "day", "off"]; on every other vector, and so on every rule built by
    [initialize], each index it uses exists, and the loop always ends. *)
Theorem ranges_index_out_of_range (e : Exclusion) (range : Range) :
  (ranges e range = Undefined <->
   match tokens e with
   | [] | [_] => True
   | [_; t1] => t1 = "day"
   | [_; t1; t2] => t1 = "day" /\ (t2 = "on" \/ t2 = "off")
   | _ => False
   end) /\
  ranges e range <> OutOfFuel /\
  (forall line, parse line = Ok e -> ranges e range <> Undefined).
Proof.
  assert (A : (ranges e range = Undefined <->
               match tokens e with
               | [] | [_] => True
               | [_; t1] => t1 = "day"
               | [_; t1; t2] => t1 = "day" /\ (t2 = "on" \/ t2 = "off")
               | _ => False
               end) /\ ranges e range <> OutOfFuel).
  { unfold ranges.
    destruct (walk_defined e
                (Datetime.dayOfWeekName (nth 1 (tokens e) "")) range)
      as [WU WF].
    destruct (tokens e) as [|t0 [|t1 [|t2 [|t3 rest]]]];
      cbn -[Datetime.dayOfWeekName String.eqb walk Datetime.parse overlap]
        in *.
    - split; [split; auto|discriminate].
    - split; [split; auto|discriminate].
    - destruct (String.eqb t1 "day") eqn:E1.
      + apply String.eqb_eq in E1. split; [split; auto|discriminate].
      + apply String.eqb_neq in E1.
        destruct (negb _).
        * split; [split; [intros U; contradiction|contradiction]|exact WF].
        * split; [split; [discriminate|contradiction]|discriminate].
    - destruct (String.eqb t1 "day") eqn:E1.
      + apply String.eqb_eq in E1.
        destruct (String.eqb t2 "on") eqn:E2.
        * apply String.eqb_eq in E2. split; [split; auto|discriminate].
        * destruct (String.eqb t2 "off") eqn:E3.
          -- apply String.eqb_eq in E3. split; [split; auto|discriminate].
          -- apply String.eqb_neq in E2, E3.
             assert (N : ~ (t1 = "day" /\ (t2 = "on" \/ t2 = "off")))
               by (intros [_ [?|?]]; contradiction).
             destruct (negb _).
             ++ split; [split; [intros U; contradiction|contradiction]
                       |exact WF].
             ++ split; [split; [discriminate|contradiction]|discriminate].
      + apply String.eqb_neq in E1.
        assert (N : ~ (t1 = "day" /\ (t2 = "on" \/ t2 = "off")))
          by (intros [? _]; contradiction).
        destruct (negb _).
        * split; [split; [intros U; contradiction|contradiction]|exact WF].
        * split; [split; [discriminate|contradiction]|discriminate].
    - assert (D : forall s : string,
                match Datetime.parse s with
                | Some start =>
                    if overlap range (mkRange start (Datetime.incr start))
                    then Ok [mkRange start (Datetime.incr start)]
                    else Ok []
                | None => Throw (Datetime.InvalidDate s)
                end <> Undefined /\
                match Datetime.parse s with
                | Some start =>
                    if overlap range (mkRange start (Datetime.incr start))
                    then Ok [mkRange start (Datetime.incr start)]
                    else Ok []
                | None => Throw (Datetime.InvalidDate s)
                end <> (OutOfFuel : result (list Range))).
      { intros s. destruct (Datetime.parse s);
          [destruct (overlap _ _)|]; split; discriminate. }
      destruct (String.eqb t1 "day") eqn:E1.
      + destruct (String.eqb t2 "on") eqn:E2.
        * destruct (D t3). split; [split; [contradiction|contradiction]|auto].
        * destruct (String.eqb t2 "off") eqn:E3.
          -- destruct (D t3).
             split; [split; [contradiction|contradiction]|auto].
          -- destruct (negb _).
             ++ split; [split; [intros U; contradiction|contradiction]
                       |exact WF].
             ++ split; [split; [discriminate|contradiction]|discriminate].
      + destruct (negb _).
        * split; [split; [intros U; contradiction|contradiction]|exact WF].
        * split; [split; [discriminate|contradiction]|discriminate]. }
  destruct A as [A1 A2]. split; [exact A1|]. split; [exact A2|].
  intros line H U.
  rewrite (ranges_requested line e range H) in U.
  destruct (collect_defined _ (requested_defined e range)) as [N _].
  contradiction.
Qed.
